(** * PyRIT scorer base class: a shallow embedding of [pyrit/score/scorer.py]

    The development follows the source file top to bottom:
    - Python values as [json.loads] produces them, with truthiness, [str()]
      and [type(...).__name__];
    - the exceptions the file raises or lets through;
    - a state-and-exception monad for the judge round trip;
    - [Scorer] with [get_identifier], [scale_value_float],
      [score_prompts_batch_async] and [send_chat_target_async];
    - the two collaborators the file imports but does not define
      ([pyrit_json_retry], [batch_task_async]), modelled from the
      specification and marked as such. *)

From Stdlib Require Import Floats ZArith String Ascii List Lia.
From stdpp Require Import gmap strings list fin_maps pretty.

Set Warnings "-register-all,-clear-no-such-hyp".
Local Open Scope string_scope.
Local Open Scope nat_scope.

(** ** Python values *)

(** The objects [json.loads] can return: [None], [bool], [int], [float],
    [str], [list] and [dict] with string keys.  A Python [float] is an IEEE
    binary64, as Rocq's primitive floats are. *)
Inductive json : Type :=
  | JNull
  | JBool (b : bool)
  | JInt (z : Z)
  | JFloat (f : float)
  | JString (s : string)
  | JArray (l : list json)
  | JObject (m : gmap string json).

(** [bool(v)]: the truth value Python's [if], [and] and conditional
    expressions use. *)
Definition truthy (v : json) : bool :=
  match v with
  | JNull => false
  | JBool b => b
  | JInt z => negb (z =? 0)%Z
  | JFloat f => negb (PrimFloat.eqb f 0%float)
  | JString s => negb (String.eqb s "")
  | JArray l => match l with [] => false | _ :: _ => true end
  | JObject m => negb (bool_decide (m = ∅))
  end.

(** [type(v).__name__] *)
Definition type_name (v : json) : string :=
  match v with
  | JNull => "NoneType"
  | JBool _ => "bool"
  | JInt _ => "int"
  | JFloat _ => "float"
  | JString _ => "str"
  | JArray _ => "list"
  | JObject _ => "dict"
  end.

(** An optional [str] argument ([category: str = None], [task: str = None])
    seen as a Python value. *)
Definition of_optional_str (o : option string) : json :=
  match o with
  | None => JNull
  | Some s => JString s
  end.

(** ** Exceptions *)

Inductive exn : Type :=
  | JSONDecodeError
  | KeyError (key : string)
  | ValueError (msg : string)
  | AttributeError (msg : string)
  | TypeError (msg : string)
  | IndexError (msg : string)
  | InvalidJsonException (message : string)
  | OtherError (cls msg : string).

(** [isinstance(e, ValueError)]: [json.JSONDecodeError] subclasses
    [ValueError]. *)
Definition is_ValueError (e : exn) : bool :=
  match e with
  | ValueError _ | JSONDecodeError => true
  | _ => false
  end.

Definition is_InvalidJsonException (e : exn) : bool :=
  match e with
  | InvalidJsonException _ => true
  | _ => false
  end.

(** The text an exception carries. *)
Definition exn_message (e : exn) : string :=
  match e with
  | JSONDecodeError => ""
  | KeyError k => k
  | ValueError m | AttributeError m | TypeError m | IndexError m => m
  | InvalidJsonException m => m
  | OtherError _ m => m
  end.

Inductive outcome (A : Type) : Type :=
  | Return (a : A)
  | Raise (e : exn).
Arguments Return {A} a.
Arguments Raise {A} e.

(** ** The Python runtime the file relies on

    [json.loads], [float] and [str] belong to Python, not to the repository.
    They are an interface here; [None] from [json_loads] stands for
    [json.JSONDecodeError]. *)
Class PyRuntime : Type := {
  (** [json.loads(s)] *)
  json_loads : string → option json;
  (** [float(s)] returns (does not raise [ValueError]) *)
  float_accepts : string → bool;
  (** [str(f)] for a float *)
  float_str : float → string;
  (** [str(v)] for a list or a dict *)
  container_str : json → string
}.

(** [str(v)] *)
Definition py_str `{PyRuntime} (v : json) : string :=
  match v with
  | JNull => "None"
  | JBool true => "True"
  | JBool false => "False"
  | JInt z => pretty z
  | JFloat f => float_str f
  | JString s => s
  | JArray _ | JObject _ => container_str v
  end.

(** [float(s)], kept for its exception only. *)
Definition py_float `{PyRuntime} (s : string) : outcome unit :=
  if float_accepts s then Return tt
  else Raise (ValueError ("could not convert string to float: " +:+ s)).

(** [v.get(key)]: a dict method; any other value has no attribute [get]. *)
Definition py_get (v : json) (key : string) : outcome json :=
  match v with
  | JObject m => Return (default JNull (m !! key))
  | _ => Raise (AttributeError
                  ("'" +:+ type_name v +:+ "' object has no attribute 'get'"))
  end.

(** [v[key]] with a string key. *)
Definition py_getitem (v : json) (key : string) : outcome json :=
  match v with
  | JObject m =>
      match m !! key with
      | Some x => Return x
      | None => Raise (KeyError key)
      end
  | JArray _ => Raise (TypeError "list indices must be integers or slices, not str")
  | JString _ => Raise (TypeError "string indices must be integers, not 'str'")
  | _ => Raise (TypeError ("'" +:+ type_name v +:+ "' object is not subscriptable"))
  end.

(** ** Models *)

Inductive ScoreType : Type := true_false | float_scale.

Record PromptRequestPiece : Type := {
  role : string;
  original_value : string;
  converted_value : string;
  original_value_data_type : string;
  converted_value_data_type : string;
  id : option string
}.

Record PromptRequestResponse : Type := {
  request_pieces : list PromptRequestPiece
}.

Record UnvalidatedScore : Type := {
  raw_score_value : string;
  score_value_description : json;
  score_type : ScoreType;
  score_category : json;
  score_rationale : json;
  scorer_class_identifier : gmap string (option string);
  score_metadata : json;
  prompt_request_response_id : string;
  task : option string
}.

(** ** The judge round trip as a computation

    [sent] counts the prompts sent to the chat target, [built] the
    [UnvalidatedScore] objects constructed. *)
Record JudgeState : Type := {
  sent : nat;
  built : nat
}.

Definition Task (A : Type) : Type := JudgeState → outcome A * JudgeState.

Definition ret {A} (a : A) : Task A := fun st => (Return a, st).
Definition raise {A} (e : exn) : Task A := fun st => (Raise e, st).
Definition lift {A} (o : outcome A) : Task A := fun st => (o, st).

Definition bind {A B} (m : Task A) (k : A → Task B) : Task B :=
  fun st =>
    match m st with
    | (Return a, st') => k a st'
    | (Raise e, st') => (Raise e, st')
    end.

#[export] Instance task_ret : MRet Task := @ret.
#[export] Instance task_bind : MBind Task := λ A B k m, bind m k.

(** [try: body except ...]: [handler e] is the clause that matches [e], if
    one does. *)
Definition try_except {A} (body : Task A) (handler : exn → option (Task A))
  : Task A :=
  fun st =>
    match body st with
    | (Raise e, st') =>
        match handler e with
        | Some h => h st'
        | None => (Raise e, st')
        end
    | r => r
    end.

(** A chat target answers the [n]-th prompt it is sent (or fails). *)
Definition PromptChatTarget : Type :=
  nat → PromptRequestResponse → outcome PromptRequestResponse.

Definition send_prompt_async (prompt_target : PromptChatTarget)
    (prompt_request : PromptRequestResponse) : Task PromptRequestResponse :=
  fun st =>
    (prompt_target (sent st) prompt_request,
     {| sent := S (sent st); built := built st |}).

(** Calling the [UnvalidatedScore] constructor. *)
Definition construct (s : UnvalidatedScore) : Task UnvalidatedScore :=
  fun st => (Return s, {| sent := sent st; built := S (built st) |}).

(** ** class Scorer *)

(** What [self.__class__] exposes. *)
Record ScorerClass : Type := {
  cls_name : string;
  cls_module : string
}.

(** A scorer instance: its class, its [scorer_type], the optional
    [_prompt_target] attribute, and the concrete [score_async]. *)
Record Scorer (Score : Type) : Type := {
  scorer_class : ScorerClass;
  scorer_type : ScoreType;
  _prompt_target : option PromptChatTarget;
  score_async : PromptRequestPiece → option string → outcome (list Score)
}.
Arguments scorer_class {Score} _.
Arguments scorer_type {Score} _.
Arguments _prompt_target {Score} _.
Arguments score_async {Score} _ _ _.

(** [scale_value_float] *)
Definition scale_value_float (value min_value max_value : float) : float :=
  if PrimFloat.eqb max_value min_value then 0%float
  else
    let normalized_value :=
      PrimFloat.div (PrimFloat.sub value min_value)
                    (PrimFloat.sub max_value min_value) in
    normalized_value.

(** [get_identifier] *)
Definition get_identifier {Score} (self : Scorer Score)
  : gmap string (option string) :=
  let identifier : gmap string (option string) := ∅ in
  let identifier := <["__type__" := Some (cls_name (scorer_class self))]> identifier in
  let identifier := <["__module__" := Some (cls_module (scorer_class self))]> identifier in
  let identifier := <["sub_identifier" := None]> identifier in
  identifier.

(** [response.request_pieces[0].converted_value] *)
Definition first_converted_value (response : PromptRequestResponse)
  : outcome string :=
  match request_pieces response with
  | piece :: _ => Return (converted_value piece)
  | [] => Raise (IndexError "list index out of range")
  end.

(** [json.loads(response_json)] *)
Definition py_json_loads `{PyRuntime} (response_json : string) : outcome json :=
  match json_loads response_json with
  | Some v => Return v
  | None => Raise JSONDecodeError
  end.

Section send_chat_target.
Context `{PyRuntime} {Score : Type}.

(** The statements of the first [try] block from [json.loads] on.
    Keyword arguments of [UnvalidatedScore(...)] are evaluated in the
    order they are written, then the constructor runs. *)
Definition parse_and_build (self : Scorer Score) (response_json : string)
    (scored_prompt_id : string) (category : option string)
    (task : option string) : Task UnvalidatedScore :=
  parsed_response ← lift (py_json_loads response_json);
  category_response ← lift (py_get parsed_response "category");
  if truthy category_response && truthy (of_optional_str category) then
    raise (ValueError "Category is present in the response and an argument")
  else
    let category :=
      if truthy category_response then category_response
      else of_optional_str category in
    score_value ← lift (py_getitem parsed_response "score_value");
    description ← lift (py_get parsed_response "description");
    rationale ← lift (py_getitem parsed_response "rationale");
    metadata ← lift (py_get parsed_response "metadata");
    construct {|
      raw_score_value := py_str score_value;
      score_value_description := description;
      score_type := scorer_type self;
      score_category := category;
      score_rationale := rationale;
      scorer_class_identifier := get_identifier self;
      score_metadata := metadata;
      prompt_request_response_id := scored_prompt_id;
      task := task
    |}.

(** The [except] clauses of the first [try]. *)
Definition parse_handlers (response_json : string) (e : exn)
  : option (Task UnvalidatedScore) :=
  match e with
  | JSONDecodeError =>
      Some (raise (InvalidJsonException
                     ("Invalid JSON response: " +:+ response_json)))
  | KeyError _ =>
      Some (raise (InvalidJsonException
                     ("Invalid JSON response, missing Key: " +:+ response_json)))
  | _ => None
  end.

(** The second [try]: the float check and its [except ValueError]. *)
Definition float_check (self : Scorer Score) (score : UnvalidatedScore)
  : Task unit :=
  try_except
    (match scorer_type self with
     | float_scale => lift (py_float (raw_score_value score))
     | true_false => ret tt
     end)
    (fun e =>
       if is_ValueError e then
         Some (raise (InvalidJsonException
                 ("Invalid JSON response, score_value should be a float not this: "
                  +:+ raw_score_value score)))
       else None).

(** The body of [send_chat_target_async], one attempt.  Indexing
    [request_pieces[0]] sits inside the first [try] in the source; no
    clause there catches [IndexError], so it is written before it. *)
Definition send_chat_target_async_body (self : Scorer Score)
    (prompt_target : PromptChatTarget)
    (scorer_llm_request : PromptRequestResponse)
    (scored_prompt_id : string) (category : option string)
    (task : option string) : Task UnvalidatedScore :=
  response ← send_prompt_async prompt_target scorer_llm_request;
  response_json ← lift (first_converted_value response);
  score ← try_except
            (parse_and_build self response_json scored_prompt_id category task)
            (parse_handlers response_json);
  _ ← float_check self score;
  mret score.

End send_chat_target.

(** ** The retry decorator *)

(** Modelled from the spec: which failures [pyrit_json_retry] retries.  The
    decorator lives in [pyrit/exceptions/exception_classes.py], which is not
    among the sources.  Section 7: the invalid-response failure
    ([InvalidJsonException] in the source) is the recoverable kind, every
    other failure propagates to the caller. *)
Definition recoverable (e : exn) : bool := is_InvalidJsonException e.

(** Modelled from the spec: the retry loop of [pyrit_json_retry] (section
    4.2): a recoverable failure is retried while attempts remain, the last one
    is surfaced on exhaustion, any other failure and any result end the loop
    at once.  Back-off delays take time only and are left out. *)
Fixpoint retry_loop {A} (retries_left : nat) (op : Task A) : Task A :=
  fun st =>
    match op st with
    | (Raise e, st') =>
        if recoverable e then
          match retries_left with
          | O => (Raise e, st')
          | S n => retry_loop n op st'
          end
        else (Raise e, st')
    | r => r
    end.

(** Modelled from the spec: [pyrit_json_retry] with its maximum attempt
    count, a configuration constant of the missing module, as a parameter.
    The first attempt always runs. *)
Definition pyrit_json_retry {A} (max_attempts : nat) (op : Task A) : Task A :=
  retry_loop (Nat.pred max_attempts) op.

(** [send_chat_target_async] as callers see it: the body under
    [@pyrit_json_retry]. *)
Definition send_chat_target_async `{PyRuntime} {Score} (max_attempts : nat)
    (self : Scorer Score) (prompt_target : PromptChatTarget)
    (scorer_llm_request : PromptRequestResponse) (scored_prompt_id : string)
    (category : option string) (task : option string) : Task UnvalidatedScore :=
  pyrit_json_retry max_attempts
    (send_chat_target_async_body self prompt_target scorer_llm_request
       scored_prompt_id category task).

(** A fresh call: nothing sent, nothing built. *)
Definition fresh : JudgeState := {| sent := 0; built := 0 |}.

(** ** Batch scoring *)

(** Collecting per-subject outcomes in input order; the first failure met
    in that order is the one propagated. *)
Fixpoint collect_outcomes {R} (l : list (outcome R)) : outcome (list R) :=
  match l with
  | [] => Return []
  | Return r :: rest =>
      match collect_outcomes rest with
      | Return rs => Return (r :: rs)
      | Raise e => Raise e
      end
  | Raise e :: _ => Raise e
  end.

(** ** The batch executor as a scheduler *)

(** Modelled from the spec: the scheduling of the Batch Executor behind
    [batch_task_async] (sections 4.4 and 5; the code is not among the
    sources).  Subjects are dispatched in input order, a dispatch needs a free
    slot among [batch_size], units in flight complete in any order, and each
    result is stored at its subject's position. *)
Module Executor.
Section executor.
Context {A R : Type}.
Variable task : A → outcome R.
Variable batch_size : nat.
Variable items : list A.

Record state : Type := {
  next : nat;
  in_flight : gset nat;
  finished : gmap nat (outcome R)
}.

Inductive event : Type :=
  | Dispatch
  | Complete (i : nat).

Definition init : state :=
  {| next := 0; in_flight := ∅; finished := ∅ |}.

Definition step (st : state) (ev : event) : option state :=
  match ev with
  | Dispatch =>
      if decide (next st < length items ∧ size (in_flight st) < batch_size)
      then Some {| next := S (next st);
                   in_flight := {[next st]} ∪ in_flight st;
                   finished := finished st |}
      else None
  | Complete i =>
      if decide (i ∈ in_flight st) then
        match items !! i with
        | Some x => Some {| next := next st;
                            in_flight := in_flight st ∖ {[i]};
                            finished := <[i := task x]> (finished st) |}
        | None => None
        end
      else None
  end.

(** Running a schedule; [None] when an event is not enabled. *)
Fixpoint run (st : state) (schedule : list event) : option state :=
  match schedule with
  | [] => Some st
  | ev :: rest =>
      match step st ev with
      | Some st' => run st' rest
      | None => None
      end
  end.

Definition terminal (st : state) : bool :=
  bool_decide (next st = length items ∧ in_flight st = ∅).

(** The stored results read back by position. *)
Definition gathered (st : state) : option (list (outcome R)) :=
  mapM (λ i, finished st !! i) (seq 0 (length items)).

(** What the executor hands back once every unit is done. *)
Definition result (st : state) : option (outcome (list R)) :=
  collect_outcomes <$> gathered st.

(** One subject at a time: a schedule that always exists. *)
Definition sequential (from count : nat) : list event :=
  flat_map (λ i, [Dispatch; Complete i]) (seq from count).

(** The schedule is admitted event by event and leaves every unit done. *)
Definition completes (schedule : list event) : bool :=
  match run init schedule with
  | Some st => terminal st
  | None => false
  end.

End executor.
End Executor.

(** [batch_task_async] as this file calls it: [task], [task_argument],
    [prompt_target], [batch_size], [items_to_batch].  [None] stands for a
    call that hands nothing back. *)
Definition BatchTaskAsync (A R : Type) : Type :=
  (A → outcome R) → string → option PromptChatTarget → nat → list A →
  option (outcome (list R)).

(** Modelled from the spec: [batch_task_async] from
    [pyrit/common/batch_helper.py], which is not among the sources, as the
    Batch Executor of sections 4.4 and 5 run under one interleaving of
    dispatches and completions ([schedule], the event loop's choice).  The
    call hands back the per-subject results read by position when the
    interleaving is admitted and leaves every unit done, and nothing
    otherwise; [prompt_target] is passed through unused. *)
Definition batch_task_async {A R} (schedule : list Executor.event)
  : BatchTaskAsync A R :=
  λ task task_argument prompt_target batch_size items_to_batch,
    match Executor.run task batch_size items_to_batch Executor.init schedule with
    | Some st =>
        if Executor.terminal items_to_batch st
        then Executor.result items_to_batch st
        else None
    | None => None
    end.

(** [score_prompts_batch_async], with the imported [batch_task_async] as an
    argument; [batch_size = None] is the call that leaves the keyword out. *)
Definition score_prompts_batch_async {Score}
    (batch_helper : BatchTaskAsync PromptRequestPiece (list Score))
    (self : Scorer Score) (prompts : list PromptRequestPiece)
    (batch_size : option nat) : option (outcome (list Score)) :=
  let batch_size := default 10 batch_size in
  let prompt_target := _prompt_target self in
  match batch_helper
          (fun request_response => score_async self request_response None)
          "request_response" prompt_target batch_size prompts with
  | Some (Return results) => Some (Return (concat results))
  | Some (Raise e) => Some (Raise e)
  | None => None
  end.

(** ** A reference runtime for closed examples

    A reading of [json.loads] and [float] on plain ASCII text, enough to
    run the pipeline on concrete responses.  [json_loads] covers the JSON
    fragment without escape sequences and without fractional or exponent
    numbers; text outside the fragment is not used in the examples. *)
Module Reference.

(** The double quote character. *)
Definition dquote : ascii := ascii_of_nat 34.

(** Concrete responses are written with apostrophes where JSON has double
    quotes; [json_text] puts the double quotes in. *)
Definition json_text (s : string) : string :=
  string_of_list_ascii
    (map (λ c, if Ascii.eqb c "'" then dquote else c) (list_ascii_of_string s)).

Definition is_digit (c : ascii) : bool :=
  let n := nat_of_ascii c in ((48 <=? n) && (n <=? 57))%nat.

(** Python's [str.isspace] on ASCII. *)
Definition is_py_space (c : ascii) : bool :=
  let n := nat_of_ascii c in
  (((9 <=? n) && (n <=? 13)) || ((28 <=? n) && (n <=? 32)))%nat.

(** JSON whitespace. *)
Definition is_json_space (c : ascii) : bool :=
  let n := nat_of_ascii c in
  ((n =? 32) || (n =? 9) || (n =? 10) || (n =? 13))%nat.

Fixpoint drop_while (p : ascii → bool) (s : list ascii) : list ascii :=
  match s with
  | c :: r => if p c then drop_while p r else s
  | [] => []
  end.

Definition strip (p : ascii → bool) (s : list ascii) : list ascii :=
  rev (drop_while p (rev (drop_while p s))).

Definition lower (c : ascii) : ascii :=
  let n := nat_of_ascii c in
  if ((65 <=? n) && (n <=? 90))%nat then ascii_of_nat (n + 32) else c.

(** After a first digit: more digits, single underscores only between
    digits. *)
Fixpoint more_digits (s : list ascii) : list ascii :=
  match s with
  | c :: r =>
      if is_digit c then more_digits r
      else if Ascii.eqb c "_" then
        match r with
        | d :: r' => if is_digit d then more_digits r' else s
        | [] => s
        end
      else s
  | [] => []
  end.

(** [digitpart]: at least one digit. *)
Definition digitpart (s : list ascii) : option (list ascii) :=
  match s with
  | c :: r => if is_digit c then Some (more_digits r) else None
  | [] => None
  end.

Definition skip_sign (s : list ascii) : list ascii :=
  match s with
  | c :: r => if Ascii.eqb c "+" || Ascii.eqb c "-" then r else s
  | [] => []
  end.

(** The digits of the mantissa: [d+], [d+.], [d+.d+] or [.d+]. *)
Definition mantissa (s : list ascii) : option (list ascii) :=
  match digitpart s with
  | Some r =>
      match r with
      | c :: r' =>
          if Ascii.eqb c "." then
            match digitpart r' with
            | Some r'' => Some r''
            | None => Some r'
            end
          else Some r
      | [] => Some []
      end
  | None =>
      match s with
      | c :: r => if Ascii.eqb c "." then digitpart r else None
      | [] => None
      end
  end.

Definition exponent (s : list ascii) : option (list ascii) :=
  match s with
  | c :: r =>
      if Ascii.eqb (lower c) "e" then digitpart (skip_sign r) else Some s
  | [] => Some []
  end.

Definition is_decimal (s : list ascii) : bool :=
  match mantissa s with
  | Some r =>
      match exponent r with
      | Some [] => true
      | _ => false
      end
  | None => false
  end.

Definition is_special (s : list ascii) : bool :=
  let w := string_of_list_ascii (map lower s) in
  String.eqb w "inf" || String.eqb w "infinity" || String.eqb w "nan".

(** [float(s)] succeeds: surrounding whitespace, a sign, then a decimal
    numeral or one of [inf], [infinity], [nan] in any letter case. *)
Definition ref_float_accepts (s : string) : bool :=
  let body := skip_sign (strip is_py_space (list_ascii_of_string s)) in
  is_special body || is_decimal body.

(** *** JSON *)

(** The characters of a string literal up to its closing quote; a
    backslash or a control character leaves the fragment. *)
Fixpoint string_body (s : list ascii) : option (string * list ascii) :=
  match s with
  | c :: r =>
      if Ascii.eqb c dquote then Some ("", r)
      else if Ascii.eqb c "\" || (nat_of_ascii c <? 32)%nat then None
      else
        match string_body r with
        | Some (t, r') => Some (String c t, r')
        | None => None
        end
  | [] => None
  end.

Fixpoint digits_value (acc : Z) (s : list ascii) : Z * list ascii :=
  match s with
  | c :: r =>
      if is_digit c
      then digits_value (10 * acc + Z.of_nat (nat_of_ascii c - 48)) r
      else (acc, s)
  | [] => (acc, [])
  end.

(** [0] or a numeral without leading zero; a following [.], [e] or [E]
    would make it a float and leaves the fragment. *)
Definition natural (s : list ascii) : option (Z * list ascii) :=
  match s with
  | c :: r =>
      if is_digit c then
        let '(z, r') := if Ascii.eqb c "0" then (0%Z, r) else digits_value 0 s in
        match r' with
        | d :: _ =>
            if Ascii.eqb d "." || Ascii.eqb (lower d) "e" then None
            else Some (z, r')
        | [] => Some (z, r')
        end
      else None
  | [] => None
  end.

Fixpoint prefix_rest (p s : list ascii) : option (list ascii) :=
  match p, s with
  | [], _ => Some s
  | a :: p', b :: s' => if Ascii.eqb a b then prefix_rest p' s' else None
  | _ :: _, [] => None
  end.

Definition literal (word : string) (v : json) (s : list ascii)
  : option (json * list ascii) :=
  match prefix_rest (list_ascii_of_string word) s with
  | Some r => Some (v, r)
  | None => None
  end.

Definition ws := drop_while is_json_space.

Fixpoint value (fuel : nat) (s : list ascii) : option (json * list ascii) :=
  match fuel with
  | O => None
  | S n =>
      match ws s with
      | c :: r =>
          if Ascii.eqb c "{" then
            match ws r with
            | d :: r' =>
                if Ascii.eqb d "}" then Some (JObject ∅, r')
                else members n ∅ r
            | [] => None
            end
          else if Ascii.eqb c "[" then
            match ws r with
            | d :: r' =>
                if Ascii.eqb d "]" then Some (JArray [], r')
                else elements n [] r
            | [] => None
            end
          else if Ascii.eqb c dquote then
            match string_body r with
            | Some (t, r') => Some (JString t, r')
            | None => None
            end
          else if Ascii.eqb c "-" then
            match natural r with
            | Some (z, r') => Some (JInt (- z), r')
            | None => None
            end
          else if is_digit c then
            match natural (c :: r) with
            | Some (z, r') => Some (JInt z, r')
            | None => None
            end
          else if Ascii.eqb c "t" then literal "true" (JBool true) (c :: r)
          else if Ascii.eqb c "f" then literal "false" (JBool false) (c :: r)
          else if Ascii.eqb c "n" then literal "null" JNull (c :: r)
          else None
      | [] => None
      end
  end
with members (fuel : nat) (acc : gmap string json) (s : list ascii)
  : option (json * list ascii) :=
  match fuel with
  | O => None
  | S n =>
      match ws s with
      | q :: r =>
          if Ascii.eqb q dquote then
            match string_body r with
            | Some (key, r1) =>
                match ws r1 with
                | colon :: r2 =>
                    if Ascii.eqb colon ":" then
                      match value n r2 with
                      | Some (v, r3) =>
                          match ws r3 with
                          | d :: r4 =>
                              if Ascii.eqb d "," then members n (<[key := v]> acc) r4
                              else if Ascii.eqb d "}" then Some (JObject (<[key := v]> acc), r4)
                              else None
                          | [] => None
                          end
                      | None => None
                      end
                    else None
                | [] => None
                end
            | None => None
            end
          else None
      | [] => None
      end
  end
with elements (fuel : nat) (acc : list json) (s : list ascii)
  : option (json * list ascii) :=
  match fuel with
  | O => None
  | S n =>
      match value n s with
      | Some (v, r) =>
          match ws r with
          | d :: r' =>
              if Ascii.eqb d "," then elements n (acc ++ [v]) r'
              else if Ascii.eqb d "]" then Some (JArray (acc ++ [v]), r')
              else None
          | [] => None
          end
      | None => None
      end
  end.

(** [json.loads(s)] on the fragment: one value, whitespace around it. *)
Definition ref_json_loads (s : string) : option json :=
  let text := list_ascii_of_string s in
  match value (S (length text)) text with
  | Some (v, r) => match ws r with [] => Some v | _ :: _ => None end
  | None => None
  end.

(** The fragment has no float, and the runs below take their score values
    from strings and integers, so [str] of a float or of a container is never
    reached there; both are left empty. *)
#[export] Instance runtime : PyRuntime := {|
  json_loads := ref_json_loads;
  float_accepts := ref_float_accepts;
  float_str := λ _, "";
  container_str := λ _, ""
|}.

End Reference.

(** * Vocabulary of the statements *)

(** The state after one prompt was sent and no score was built. *)
Definition after_send (st : JudgeState) : JudgeState :=
  {| sent := S (sent st); built := built st |}.

(** The state after one prompt was sent and one score was built. *)
Definition after_build (st : JudgeState) : JudgeState :=
  {| sent := S (sent st); built := S (built st) |}.

Section attempt_vocabulary.
Context `{PyRuntime} {Score : Type}.
Variable self : Scorer Score.
Variable prompt_target : PromptChatTarget.
Variable scorer_llm_request : PromptRequestResponse.
Variable scored_prompt_id : string.
Variable category : option string.
Variable objective : option string.

(** The judge answers the prompt numbered [sent st] with a response whose
    first piece carries [raw]. *)
Definition answers (st : JudgeState) (raw : string) : Prop :=
  ∃ response piece rest,
    prompt_target (sent st) scorer_llm_request = Return response
    ∧ request_pieces response = piece :: rest
    ∧ converted_value piece = raw.

(** The category the response and the argument clash on. *)
Definition category_clash (m : gmap string json) : bool :=
  truthy (default JNull (m !! "category")) && truthy (of_optional_str category).

(** The category a score gets when there is no clash. *)
Definition resolved_category (m : gmap string json) : json :=
  if truthy (default JNull (m !! "category"))
  then default JNull (m !! "category")
  else of_optional_str category.

(** The score built from an object whose required entries are
    [score_value] and [rationale], when there is no clash. *)
Definition score_from (m : gmap string json) (score_value rationale : json)
  : UnvalidatedScore :=
  {| raw_score_value := py_str score_value;
     score_value_description := default JNull (m !! "description");
     score_type := scorer_type self;
     score_category := resolved_category m;
     score_rationale := rationale;
     scorer_class_identifier := get_identifier self;
     score_metadata := default JNull (m !! "metadata");
     prompt_request_response_id := scored_prompt_id;
     task := objective |}.

(** The failure of the float check. *)
Definition not_a_float (score : UnvalidatedScore) : exn :=
  InvalidJsonException
    ("Invalid JSON response, score_value should be a float not this: "
     +:+ raw_score_value score).

End attempt_vocabulary.

(** [part] occurs in [text]. *)
Definition contains (text part : string) : Prop :=
  ∃ before after, text = before +:+ part +:+ after.

Definition is_dict (v : json) : bool :=
  match v with JObject _ => true | _ => false end.

(** The failure of the category check. *)
Definition ambiguous_category : exn :=
  ValueError "Category is present in the response and an argument".

(** The failure of a missing required key. *)
Definition missing_key (raw : string) : exn :=
  InvalidJsonException ("Invalid JSON response, missing Key: " +:+ raw).

Section scheduling_vocabulary.
Context {A R : Type}.
Variable task : A → outcome R.
Variable batch_size : nat.
Variable items : list A.

(** What holds in every state a schedule can reach. *)
Record invariant (st : @Executor.state R) : Prop := {
  inv_bound : size (Executor.in_flight st) ≤ batch_size;
  inv_next : Executor.next st ≤ length items;
  inv_flight : ∀ i, i ∈ Executor.in_flight st → i < Executor.next st;
  inv_finished : ∀ i, i < Executor.next st → i ∉ Executor.in_flight st →
                  Executor.finished st !! i = task <$> items !! i
}.

End scheduling_vocabulary.

(** The specification's reading of the float check, in its words: the text
    parses as a finite real number, that is, as a decimal numeral (sign,
    digits, fraction, exponent), surrounding whitespace aside. *)
Definition parses_as_finite_real (s : string) : bool :=
  Reference.is_decimal
    (Reference.skip_sign
       (Reference.strip Reference.is_py_space (list_ascii_of_string s))).

(** ** Data for concrete runs *)

Definition piece_of (text : string) : PromptRequestPiece :=
  {| role := "assistant";
     original_value := text;
     converted_value := text;
     original_value_data_type := "text";
     converted_value_data_type := "text";
     id := None |}.

(** A judge that gives the same answer to every prompt. *)
Definition judge_says (text : string) : PromptChatTarget :=
  λ _ _, Return {| request_pieces := [piece_of text] |}.

Definition request : PromptRequestResponse :=
  {| request_pieces := [piece_of "Rate the answer."] |}.

Definition likert_class : ScorerClass :=
  {| cls_name := "SelfAskLikertScorer";
     cls_module := "pyrit.score.self_ask_likert_scorer" |}.

(** A scorer whose [score_async] gives two scores per subject, named after
    the subject's text. *)
Definition scorer_of (ty : ScoreType) : Scorer string :=
  {| scorer_class := likert_class;
     scorer_type := ty;
     _prompt_target := None;
     score_async := λ prompt _,
       Return [original_value prompt +:+ "/first";
               original_value prompt +:+ "/second"] |}.

Definition subjects : list PromptRequestPiece :=
  map (λ i, piece_of (pretty i)) (seq 0 25).

(** Dispatch [count] subjects, then let them complete last started first. *)
Definition wave (from count : nat) : list Executor.event :=
  replicate count Executor.Dispatch
  ++ map Executor.Complete (rev (seq from count)).

Definition schedule : list Executor.event :=
  wave 0 10 ++ wave 10 10 ++ wave 20 5.

(** The fifty scores of the 25 subjects, in the order of the subjects. *)
Definition expected_scores : list string :=
  flat_map (λ i, [pretty i +:+ "/first"; pretty i +:+ "/second"]) (seq 0 25).

(** A batch helper that only reports the batch size it was given. *)
Definition batch_size_probe : BatchTaskAsync PromptRequestPiece (list string) :=
  λ _ _ _ batch_size _,
    Some (Raise (OtherError "batch_size" (pretty batch_size))).

(** * The text and image helpers *)

(** The [PromptRequestPiece] constructor as the two helpers call it: [role]
    and [original_value], then [converted_value], [original_value_data_type]
    and [converted_value_data_type], each given or left out.  The class is
    not in this file: what it fills in, a generated id included, is the
    constructor's matter. *)
Definition PieceConstructor : Type :=
  string → string → option string → option string → option string →
  PromptRequestPiece.

(** [piece.id = new_id] *)
Definition set_id (piece : PromptRequestPiece) (new_id : option string)
  : PromptRequestPiece :=
  {| role := role piece;
     original_value := original_value piece;
     converted_value := converted_value piece;
     original_value_data_type := original_value_data_type piece;
     converted_value_data_type := converted_value_data_type piece;
     id := new_id |}.

(** [score_text_async] *)
Definition score_text_async {Score} (new_piece : PieceConstructor)
    (self : Scorer Score) (text : string) (task : option string)
  : outcome (list Score) :=
  let request_piece := new_piece "user" text None None None in
  let request_piece := set_id request_piece None in
  score_async self request_piece task.

(** [score_image_async] *)
Definition score_image_async {Score} (new_piece : PieceConstructor)
    (self : Scorer Score) (image_path : string) (task : option string)
  : outcome (list Score) :=
  let request_piece :=
    new_piece "user" image_path (Some image_path)
      (Some "image_path") (Some "image_path") in
  let request_piece := set_id request_piece None in
  score_async self request_piece task.


(** * Every attempt, case by case *)

Section attempt_cases.
Context `{PyRuntime} {Score : Type}.
Variable self : Scorer Score.
Variable prompt_target : PromptChatTarget.
Variable scorer_llm_request : PromptRequestResponse.
Variable scored_prompt_id : string.
Variable category : option string.
Variable objective : option string.

Local Abbreviation judge_answers := (answers prompt_target scorer_llm_request).
Local Abbreviation the_score :=
  (score_from self scored_prompt_id category objective).

(** The ways an attempt started in [st] can end: its outcome and the state
    it leaves. *)
Inductive attempt_case (st : JudgeState)
  : outcome UnvalidatedScore → JudgeState → Prop :=
  | target_failed e :
      prompt_target (sent st) scorer_llm_request = Raise e →
      attempt_case st (Raise e) (after_send st)
  | no_piece response :
      prompt_target (sent st) scorer_llm_request = Return response →
      request_pieces response = [] →
      attempt_case st (Raise (IndexError "list index out of range"))
        (after_send st)
  | not_json raw :
      judge_answers st raw →
      json_loads raw = None →
      attempt_case st
        (Raise (InvalidJsonException ("Invalid JSON response: " +:+ raw)))
        (after_send st)
  | not_object raw v :
      judge_answers st raw →
      json_loads raw = Some v →
      is_dict v = false →
      attempt_case st
        (Raise (AttributeError
                  ("'" +:+ type_name v +:+ "' object has no attribute 'get'")))
        (after_send st)
  | categories_clash raw m :
      judge_answers st raw →
      json_loads raw = Some (JObject m) →
      category_clash category m = true →
      attempt_case st (Raise ambiguous_category) (after_send st)
  | key_missing raw m :
      judge_answers st raw →
      json_loads raw = Some (JObject m) →
      category_clash category m = false →
      m !! "score_value" = None ∨ m !! "rationale" = None →
      attempt_case st (Raise (missing_key raw)) (after_send st)
  | float_refused raw m score_value rationale :
      judge_answers st raw →
      json_loads raw = Some (JObject m) →
      category_clash category m = false →
      m !! "score_value" = Some score_value →
      m !! "rationale" = Some rationale →
      scorer_type self = float_scale →
      float_accepts (py_str score_value) = false →
      attempt_case st
        (Raise (not_a_float (the_score m score_value rationale)))
        (after_build st)
  | scored raw m score_value rationale :
      judge_answers st raw →
      json_loads raw = Some (JObject m) →
      category_clash category m = false →
      m !! "score_value" = Some score_value →
      m !! "rationale" = Some rationale →
      scorer_type self = true_false
      ∨ float_accepts (py_str score_value) = true →
      attempt_case st (Return (the_score m score_value rationale))
        (after_build st).

End attempt_cases.

(** The runtime [rt] with another [float]. *)
Definition with_float_accepts (rt : PyRuntime) (accepts : string → bool)
  : PyRuntime :=
  {| json_loads := @json_loads rt;
     float_accepts := accepts;
     float_str := @float_str rt;
     container_str := @container_str rt |}.

(** ** More data for concrete runs *)

(** A judge whose response has no piece. *)
Definition silent_judge : PromptChatTarget :=
  λ _ _, Return {| request_pieces := [] |}.

(** A constructor that fills the defaults in and assigns [new_id]. *)
Definition piece_with_id (new_id : string) : PieceConstructor :=
  λ r o c ot ct,
    {| role := r;
       original_value := o;
       converted_value := default o c;
       original_value_data_type := default "text" ot;
       converted_value_data_type := default "text" ct;
       id := Some new_id |}.

(** A scorer that reports the id of the piece it is given. *)
Definition id_reporter : Scorer string :=
  {| scorer_class := likert_class;
     scorer_type := true_false;
     _prompt_target := None;
     score_async := λ prompt _, Return [default "no id" (id prompt)] |}.

(** A judge whose response holds a second piece and another role. *)
Definition verbose_judge (text : string) : PromptChatTarget :=
  λ _ _, Return {| request_pieces :=
    [ {| role := "system"; original_value := "draft";
         converted_value := text; original_value_data_type := "text";
         converted_value_data_type := "text"; id := Some "p-7" |};
      piece_of "trailing piece" ] |}.

(** * Properties *)

(** ** Running one attempt *)

Section attempt.
Context `{PyRuntime} {Score : Type}.
Variable self : Scorer Score.
Variable prompt_target : PromptChatTarget.
Variable scorer_llm_request : PromptRequestResponse.
Variable scored_prompt_id : string.
Variable category : option string.
Variable objective : option string.

Local Abbreviation body :=
  (send_chat_target_async_body self prompt_target scorer_llm_request
     scored_prompt_id category objective).
Local Abbreviation judge_answers := (answers prompt_target scorer_llm_request).
Local Abbreviation the_score :=
  (score_from self scored_prompt_id category objective).

(** Up to the first [try], an attempt only sends the prompt and reads the
    first piece. *)
Lemma body_unfold st raw :
  judge_answers st raw →
  body st =
    match try_except
            (parse_and_build self raw scored_prompt_id category objective)
            (parse_handlers raw) (after_send st) with
    | (Return score, st') =>
        match float_check self score st' with
        | (Return _, st'') => (Return score, st'')
        | (Raise e, st'') => (Raise e, st'')
        end
    | (Raise e, st') => (Raise e, st')
    end.
Proof.
  intros (response & piece & rest & Hsend & Hpieces & Hraw).
  unfold send_chat_target_async_body, mbind, task_bind, bind,
    send_prompt_async, lift, first_converted_value.
  rewrite Hsend, Hpieces, Hraw. reflexivity.
Qed.

(** The first [try] when the text is not JSON. *)
Lemma parse_invalid st raw :
  json_loads raw = None →
  try_except (parse_and_build self raw scored_prompt_id category objective)
    (parse_handlers raw) st
  = (Raise (InvalidJsonException ("Invalid JSON response: " +:+ raw)), st).
Proof.
  intros Hloads.
  unfold try_except, parse_and_build, mbind, task_bind, bind, lift,
    py_json_loads.
  rewrite Hloads. reflexivity.
Qed.

(** The first [try] when the text is JSON but not an object. *)
Lemma parse_non_object st raw v :
  json_loads raw = Some v →
  (∀ m, v ≠ JObject m) →
  try_except (parse_and_build self raw scored_prompt_id category objective)
    (parse_handlers raw) st
  = (Raise (AttributeError
              ("'" +:+ type_name v +:+ "' object has no attribute 'get'")), st).
Proof.
  intros Hloads Hnot.
  unfold try_except, parse_and_build, mbind, task_bind, bind, lift,
    py_json_loads.
  rewrite Hloads.
  destruct v; try reflexivity.
  exfalso. eapply Hnot. reflexivity.
Qed.

(** The first [try] on an object, case by case. *)
Lemma parse_object st raw m :
  json_loads raw = Some (JObject m) →
  try_except (parse_and_build self raw scored_prompt_id category objective)
    (parse_handlers raw) st
  = if category_clash category m then
      (Raise (ValueError "Category is present in the response and an argument"), st)
    else
      match m !! "score_value", m !! "rationale" with
      | Some score_value, Some rationale =>
          (Return (the_score m score_value rationale),
           {| sent := sent st; built := S (built st) |})
      | _, _ =>
          (Raise (InvalidJsonException
                    ("Invalid JSON response, missing Key: " +:+ raw)), st)
      end.
Proof.
  intros Hloads.
  unfold try_except, parse_and_build, mbind, task_bind, bind, lift,
    py_json_loads, category_clash, resolved_category, score_from.
  rewrite Hloads. cbn [py_get].
  destruct (truthy (default JNull (m !! "category")) &&
            truthy (of_optional_str category)); [reflexivity |].
  cbn [py_getitem py_get].
  destruct (m !! "score_value") as [sv|]; [| reflexivity].
  destruct (m !! "rationale") as [ra|]; reflexivity.
Qed.

(** The second [try]. *)
Lemma float_check_run st score :
  float_check self score st =
    match scorer_type self with
    | true_false => (Return tt, st)
    | float_scale =>
        if float_accepts (raw_score_value score) then (Return tt, st)
        else (Raise (InvalidJsonException
                ("Invalid JSON response, score_value should be a float not this: "
                 +:+ raw_score_value score)), st)
    end.
Proof.
  unfold float_check, try_except, lift, py_float, ret.
  destruct (scorer_type self); [reflexivity |].
  destruct (float_accepts (raw_score_value score)); reflexivity.
Qed.

(** A whole attempt on an object. *)
Lemma body_on_object st raw m :
  judge_answers st raw →
  json_loads raw = Some (JObject m) →
  body st =
    if category_clash category m then
      (Raise (ValueError "Category is present in the response and an argument"),
       after_send st)
    else
      match m !! "score_value", m !! "rationale" with
      | Some score_value, Some rationale =>
          let score := the_score m score_value rationale in
          match scorer_type self with
          | true_false => (Return score, after_build st)
          | float_scale =>
              if float_accepts (py_str score_value)
              then (Return score, after_build st)
              else (Raise (not_a_float score), after_build st)
          end
      | _, _ =>
          (Raise (InvalidJsonException
                    ("Invalid JSON response, missing Key: " +:+ raw)),
           after_send st)
      end.
Proof.
  intros Hans Hloads.
  rewrite (body_unfold _ _ Hans), (parse_object _ _ _ Hloads).
  destruct (category_clash category m); [reflexivity |].
  destruct (m !! "score_value") as [sv|]; [| reflexivity].
  destruct (m !! "rationale") as [ra|]; [| reflexivity].
  rewrite float_check_run. unfold not_a_float. cbn.
  destruct (scorer_type self); [reflexivity |].
  destruct (float_accepts (py_str sv)); reflexivity.
Qed.

End attempt.

(** ** The retry loop *)

Section retry.
Context {A : Type}.
Variable op : Task A.

Lemma retry_loop_return n st a st' :
  op st = (Return a, st') → retry_loop n op st = (Return a, st').
Proof. intros Hop. destruct n; cbn; rewrite Hop; reflexivity. Qed.

Lemma retry_loop_fatal n st e st' :
  op st = (Raise e, st') → recoverable e = false →
  retry_loop n op st = (Raise e, st').
Proof. intros Hop He. destruct n; cbn; rewrite Hop, He; reflexivity. Qed.

Lemma retry_loop_last st e st' :
  op st = (Raise e, st') → retry_loop 0 op st = (Raise e, st').
Proof. intros Hop. cbn. rewrite Hop. destruct (recoverable e); reflexivity. Qed.

Lemma retry_loop_again n st e st' :
  op st = (Raise e, st') → recoverable e = true →
  retry_loop (S n) op st = retry_loop n op st'.
Proof. intros Hop He. cbn. rewrite Hop, He. reflexivity. Qed.

(** A failure that is not recoverable ends the decorated call with the one
    attempt made. *)
Lemma pyrit_json_retry_fatal max_attempts st e st' :
  op st = (Raise e, st') → recoverable e = false →
  pyrit_json_retry max_attempts op st = (Raise e, st').
Proof. apply retry_loop_fatal. Qed.

(** With at most one attempt configured, the first failure is the last. *)
Lemma pyrit_json_retry_single max_attempts st e st' :
  max_attempts ≤ 1 → op st = (Raise e, st') →
  pyrit_json_retry max_attempts op st = (Raise e, st').
Proof.
  intros Hle Hop. unfold pyrit_json_retry.
  replace (Nat.pred max_attempts) with 0 by lia.
  by apply retry_loop_last.
Qed.

(** A recoverable failure uses up one attempt and the call goes on from the
    state the failed attempt left. *)
Lemma pyrit_json_retry_again n st e st' :
  op st = (Raise e, st') → recoverable e = true →
  pyrit_json_retry (S (S n)) op st = pyrit_json_retry (S n) op st'.
Proof. apply retry_loop_again. Qed.

End retry.

(** ** Failures of [send_chat_target_async] *)

Lemma append_empty_r (s : string) : s +:+ "" = s.
Proof.
  induction s as [|c s IH]; [reflexivity |].
  change (String c (s +:+ "") = String c s). by rewrite IH.
Qed.

Section failures.
Context `{PyRuntime} {Score : Type}.
Variable self : Scorer Score.
Variable prompt_target : PromptChatTarget.
Variable scorer_llm_request : PromptRequestResponse.
Variable scored_prompt_id : string.
Variable objective : option string.

Local Abbreviation body category :=
  (send_chat_target_async_body self prompt_target scorer_llm_request
     scored_prompt_id category objective).
Local Abbreviation decorated max_attempts category :=
  (send_chat_target_async max_attempts self prompt_target scorer_llm_request
     scored_prompt_id category objective).
Local Abbreviation judge_answers := (answers prompt_target scorer_llm_request).

(** C1.  When the caller passes a non-empty [category] and the parsed
    response object has a [category] entry that Python counts as true (a
    non-empty string, for one), the attempt raises the category failure (a
    [ValueError] in the source, the specification's AmbiguousCategory) after
    the one prompt it sent and with no [UnvalidatedScore] built; the failure
    is not a recoverable one, and the decorated call ends with that same
    failure and state whatever the attempt budget: no retry is made. *)
Theorem ambiguous_category_is_fatal
    (max_attempts : nat) (category : string) (st : JudgeState)
    (raw : string) (m : gmap string json) (category_response : json) :
  judge_answers st raw →
  json_loads raw = Some (JObject m) →
  m !! "category" = Some category_response →
  truthy category_response = true →
  category ≠ "" →
  body (Some category) st = (Raise ambiguous_category, after_send st)
  ∧ decorated max_attempts (Some category) st
    = (Raise ambiguous_category, after_send st)
  ∧ recoverable ambiguous_category = false.
Proof.
  intros Hans Hloads Hcat Htrue Hne.
  assert (Hbody : body (Some category) st
                  = (Raise ambiguous_category, after_send st)).
  { rewrite (body_unfold _ _ _ _ _ _ _ _ Hans).
    rewrite (parse_object _ _ _ _ _ _ _ Hloads).
    assert (Hclash : category_clash (Some category) m = true).
    { unfold category_clash. rewrite Hcat. cbn.
      rewrite Htrue. cbn.
      destruct (String.eqb_spec category "") as [->|_]; done. }
    by rewrite Hclash. }
  split; [exact Hbody |]. split; [| reflexivity].
  unfold send_chat_target_async.
  by apply pyrit_json_retry_fatal.
Qed.

(** C3.  When the first piece's converted text is not JSON, the attempt
    raises [InvalidJsonException] (the specification's InvalidResponseFormat)
    with the message ["Invalid JSON response: "] followed by the raw text, so
    the message contains that text; the failure is recoverable: with an
    attempt budget of at most one it is surfaced, with a larger budget the
    call goes on as a call with one attempt fewer from the state the failed
    attempt left. *)
Theorem invalid_json_is_recoverable
    (category : option string) (st : JudgeState) (raw : string) :
  judge_answers st raw →
  json_loads raw = None →
  body category st
  = (Raise (InvalidJsonException ("Invalid JSON response: " +:+ raw)),
     after_send st)
  ∧ contains (exn_message
                (InvalidJsonException ("Invalid JSON response: " +:+ raw))) raw
  ∧ recoverable (InvalidJsonException ("Invalid JSON response: " +:+ raw)) = true
  ∧ (∀ max_attempts, max_attempts ≤ 1 →
       decorated max_attempts category st
       = (Raise (InvalidJsonException ("Invalid JSON response: " +:+ raw)),
          after_send st))
  ∧ (∀ n, decorated (S (S n)) category st
          = decorated (S n) category (after_send st)).
Proof.
  intros Hans Hloads.
  assert (Hbody : body category st
    = (Raise (InvalidJsonException ("Invalid JSON response: " +:+ raw)),
       after_send st)).
  { rewrite (body_unfold _ _ _ _ _ _ _ _ Hans).
    by rewrite (parse_invalid _ _ _ _ _ _ Hloads). }
  repeat split.
  - exact Hbody.
  - exists "Invalid JSON response: ", "". cbn [exn_message].
    by rewrite append_empty_r.
  - intros max_attempts Hle. unfold send_chat_target_async.
    by apply pyrit_json_retry_single.
  - intros n. unfold send_chat_target_async.
    by apply (pyrit_json_retry_again _ n _ _ _ Hbody).
Qed.

(** C5.  When the text is JSON but the value is not an object (a list, a
    string, a number, a boolean, null), [parsed_response.get] raises
    [AttributeError]; neither [except] clause catches it.  The failure is
    neither [InvalidJsonException] nor a [ValueError], its message is built
    from the value's type name alone (the raw text is not in it), and the
    decorated call ends with it after the one prompt sent, whatever the
    attempt budget. *)
Theorem non_object_escapes_handlers
    (max_attempts : nat) (category : option string) (st : JudgeState)
    (raw : string) (v : json) :
  judge_answers st raw →
  json_loads raw = Some v →
  is_dict v = false →
  body category st
  = (Raise (AttributeError
              ("'" +:+ type_name v +:+ "' object has no attribute 'get'")),
     after_send st)
  ∧ decorated max_attempts category st
    = (Raise (AttributeError
                ("'" +:+ type_name v +:+ "' object has no attribute 'get'")),
       after_send st)
  ∧ is_InvalidJsonException
      (AttributeError
         ("'" +:+ type_name v +:+ "' object has no attribute 'get'")) = false
  ∧ is_ValueError
      (AttributeError
         ("'" +:+ type_name v +:+ "' object has no attribute 'get'")) = false.
Proof.
  intros Hans Hloads Hnot.
  assert (Hbody : body category st
    = (Raise (AttributeError
                ("'" +:+ type_name v +:+ "' object has no attribute 'get'")),
       after_send st)).
  { rewrite (body_unfold _ _ _ _ _ _ _ _ Hans).
    rewrite (parse_non_object _ _ _ _ _ _ v Hloads); [reflexivity |].
    intros m ->. discriminate Hnot. }
  repeat split; [exact Hbody |].
  unfold send_chat_target_async.
  by apply pyrit_json_retry_fatal.
Qed.

End failures.

(** ** Responses that are objects *)

Section on_objects.
Context `{PyRuntime} {Score : Type}.
Variable self : Scorer Score.
Variable prompt_target : PromptChatTarget.
Variable scorer_llm_request : PromptRequestResponse.
Variable scored_prompt_id : string.
Variable category : option string.
Variable objective : option string.

Local Abbreviation body :=
  (send_chat_target_async_body self prompt_target scorer_llm_request
     scored_prompt_id category objective).
Local Abbreviation judge_answers := (answers prompt_target scorer_llm_request).
Local Abbreviation the_score :=
  (score_from self scored_prompt_id category objective).

(** C2, as the code has it.  For a [float_scale] scorer and a response object
    with [score_value] and [rationale] and no category clash, the attempt
    returns the score exactly when Python's [float] accepts
    [str(score_value)], and raises the recoverable [InvalidJsonException]
    otherwise.  What [float] accepts is Python's matter: decimal numerals, and
    also [inf], [infinity] and [nan]; the code adds no finiteness test. *)
Theorem float_scale_checks_python_float
    (st : JudgeState) (raw : string) (m : gmap string json)
    (score_value rationale : json) :
  judge_answers st raw →
  json_loads raw = Some (JObject m) →
  category_clash category m = false →
  m !! "score_value" = Some score_value →
  m !! "rationale" = Some rationale →
  scorer_type self = float_scale →
  raw_score_value (the_score m score_value rationale) = py_str score_value
  ∧ body st =
      (if float_accepts (py_str score_value)
       then Return (the_score m score_value rationale)
       else Raise (not_a_float (the_score m score_value rationale)),
       after_build st)
  ∧ recoverable (not_a_float (the_score m score_value rationale)) = true.
Proof.
  intros Hans Hloads Hclash Hsv Hra Hty.
  split; [reflexivity |]. split; [| reflexivity].
  rewrite (body_on_object _ _ _ _ _ _ _ _ _ Hans Hloads).
  rewrite Hclash, Hsv, Hra, Hty. cbn zeta.
  by destruct (float_accepts (py_str score_value)).
Qed.

(** C4, as the code has it.  For a response object and no category clash:
    when [score_value] or [rationale] is missing the attempt raises the
    recoverable [InvalidJsonException] whose message ends with the raw text;
    when both are there the attempt returns the score (provided the float
    check of a [float_scale] scorer passes) whichever of [category],
    [description] and [metadata] the object holds or leaves out, and each of
    the three that is left out reads as [None]. *)
Theorem missing_key_is_recoverable
    (st : JudgeState) (raw : string) (m : gmap string json) :
  judge_answers st raw →
  json_loads raw = Some (JObject m) →
  category_clash category m = false →
  ((m !! "score_value" = None ∨ m !! "rationale" = None) →
     body st = (Raise (missing_key raw), after_send st)
     ∧ contains (exn_message (missing_key raw)) raw
     ∧ recoverable (missing_key raw) = true)
  ∧ (∀ score_value rationale,
       m !! "score_value" = Some score_value →
       m !! "rationale" = Some rationale →
       (scorer_type self = true_false
        ∨ float_accepts (py_str score_value) = true) →
       body st = (Return (the_score m score_value rationale), after_build st)
       ∧ (m !! "category" = None →
          score_category (the_score m score_value rationale)
          = of_optional_str category)
       ∧ (m !! "description" = None →
          score_value_description (the_score m score_value rationale) = JNull)
       ∧ (m !! "metadata" = None →
          score_metadata (the_score m score_value rationale) = JNull)).
Proof.
  intros Hans Hloads Hclash.
  pose proof (body_on_object self prompt_target scorer_llm_request
                scored_prompt_id category objective _ _ _ Hans Hloads) as Hbody.
  rewrite Hclash in Hbody. split.
  - intros Hmiss. repeat split.
    + rewrite Hbody.
      destruct Hmiss as [-> | Hra]; [reflexivity |].
      rewrite Hra. by destruct (m !! "score_value").
    + exists "Invalid JSON response, missing Key: ", "".
      unfold missing_key. cbn [exn_message]. by rewrite append_empty_r.
  - intros sv ra Hsv Hra Hcheck. split_and!.
    + rewrite Hbody, Hsv, Hra. cbn zeta.
      destruct Hcheck as [-> | Hok]; [reflexivity |].
      rewrite Hok. by destruct (scorer_type self).
    + intros Hcat. unfold score_from, resolved_category. cbn.
      by rewrite Hcat.
    + intros Hdesc. unfold score_from. cbn. by rewrite Hdesc.
    + intros Hmeta. unfold score_from. cbn. by rewrite Hmeta.
Qed.

(** C6, as the code has it.  For a response object, the [rationale] entry
    is required to be present and nothing more.  Without it no score comes
    back: the attempt raises the recoverable [InvalidJsonException] of a
    missing key, or the [ValueError] of the category check when the
    categories clash.  Every score that does come back carries the entry's
    value as it came; and with [score_value] present, no clash and the float
    check passed, the score comes back whatever that value is, the empty
    string and [None] included. *)
Theorem rationale_is_stored_as_given
    (st : JudgeState) (raw : string) (m : gmap string json) :
  judge_answers st raw →
  json_loads raw = Some (JObject m) →
  (m !! "rationale" = None →
     body st
     = (Raise (if category_clash category m then ambiguous_category
               else missing_key raw),
        after_send st))
  ∧ (∀ score st',
       body st = (Return score, st') →
       m !! "rationale" = Some (score_rationale score))
  ∧ (∀ score_value rationale,
       category_clash category m = false →
       m !! "score_value" = Some score_value →
       m !! "rationale" = Some rationale →
       (scorer_type self = true_false
        ∨ float_accepts (py_str score_value) = true) →
       body st = (Return (the_score m score_value rationale), after_build st)
       ∧ score_rationale (the_score m score_value rationale) = rationale).
Proof.
  intros Hans Hloads.
  pose proof (body_on_object self prompt_target scorer_llm_request
                scored_prompt_id category objective _ _ _ Hans Hloads) as Hbody.
  split_and!.
  - intros Hra. rewrite Hbody, Hra.
    destruct (category_clash category m); [reflexivity |].
    by destruct (m !! "score_value").
  - intros score st' Hreturn. rewrite Hbody in Hreturn.
    destruct (category_clash category m); [discriminate |].
    destruct (m !! "score_value") as [sv|]; [| discriminate].
    destruct (m !! "rationale") as [ra|]; [| discriminate].
    cbn zeta in Hreturn. destruct (scorer_type self).
    + by injection Hreturn as <- _.
    + destruct (float_accepts (py_str sv)); [| discriminate].
      by injection Hreturn as <- _.
  - intros sv ra Hclash Hsv Hra Hcheck. split; [| reflexivity].
    rewrite Hbody, Hclash, Hsv, Hra. cbn zeta.
    destruct Hcheck as [-> | Hok]; [reflexivity |].
    rewrite Hok. by destruct (scorer_type self).
Qed.

End on_objects.

(** ** [scale_value_float] *)

(** C7.  [scale_value_float v lo hi] is [(v - lo) / (hi - lo)] in float
    arithmetic when [hi == lo] is false (Python's [lo != hi]), and is exactly
    [0.0] when [hi == lo]; no input raises. *)
Theorem scale_value_float_cases (v lo hi : float) :
  (PrimFloat.eqb hi lo = false →
     scale_value_float v lo hi
     = PrimFloat.div (PrimFloat.sub v lo) (PrimFloat.sub hi lo))
  ∧ (PrimFloat.eqb hi lo = true → scale_value_float v lo hi = 0%float).
Proof.
  unfold scale_value_float.
  split; intros Heq; rewrite Heq; reflexivity.
Qed.

(** ** [get_identifier] *)

(** C9.  The identifier maps ["__type__"] to the class name, ["__module__"]
    to the class's module and ["sub_identifier"] to [None], and has no other
    key; two instances of one class get equal identifiers. *)
Theorem get_identifier_is_structural {Score : Type} (a b : Scorer Score) :
  scorer_class a = scorer_class b →
  get_identifier a !! "__type__" = Some (Some (cls_name (scorer_class a)))
  ∧ get_identifier a !! "__module__" = Some (Some (cls_module (scorer_class a)))
  ∧ get_identifier a !! "sub_identifier" = Some None
  ∧ dom (get_identifier a) = {["__type__"; "__module__"; "sub_identifier"]}
  ∧ get_identifier a = get_identifier b.
Proof.
  intros Hclass. unfold get_identifier. cbn zeta.
  split_and!.
  - rewrite lookup_insert_ne by done. rewrite lookup_insert_ne by done.
    apply lookup_insert_eq.
  - rewrite lookup_insert_ne by done. apply lookup_insert_eq.
  - apply lookup_insert_eq.
  - rewrite !dom_insert_L, dom_empty_L. set_solver.
  - by rewrite Hclass.
Qed.

(** ** [score_prompts_batch_async] *)

Lemma collect_outcomes_all_return {A R} (task : A → outcome R)
    (items : list A) (results : list R) :
  Forall2 (λ x r, task x = Return r) items results →
  collect_outcomes (map task items) = Return results.
Proof.
  induction 1 as [|x r items results Hx _ IH]; [reflexivity |].
  cbn. rewrite Hx, IH. reflexivity.
Qed.

Lemma collect_outcomes_return_inv {A R} (task : A → outcome R)
    (items : list A) (results : list R) :
  collect_outcomes (map task items) = Return results →
  Forall2 (λ x r, task x = Return r) items results.
Proof.
  revert results. induction items as [|x items IH]; intros results; cbn.
  - intros [= <-]. constructor.
  - destruct (task x) as [r|e] eqn:Hx; [| discriminate].
    destruct (collect_outcomes (map task items)) as [rs|e] eqn:Hrest;
      [| discriminate].
    intros [= <-]. constructor; [exact Hx | by apply IH].
Qed.

(** ** The scheduler's bound and order *)

Section scheduling.
Context {A R : Type}.
Variable task : A → outcome R.
Variable batch_size : nat.
Variable items : list A.

Local Abbreviation state := (@Executor.state R).
Local Abbreviation step := (Executor.step task batch_size items).
Local Abbreviation run := (Executor.run task batch_size items).
Local Abbreviation invariant := (invariant task batch_size items).

Lemma invariant_init : invariant Executor.init.
Proof.
  split; cbn.
  - rewrite size_empty. lia.
  - lia.
  - set_solver.
  - lia.
Qed.

Lemma invariant_step st ev st' :
  invariant st → step st ev = Some st' → invariant st'.
Proof.
  intros [Hbound Hnext Hflight Hfin]. destruct ev as [|i]; cbn.
  - case_decide as Hok; [| discriminate]. intros [= <-].
    destruct Hok as [Hlt Hfree].
    assert (Hfresh : {[Executor.next st]} ## Executor.in_flight st).
    { apply disjoint_singleton_l. intros Hin. apply Hflight in Hin. lia. }
    split; cbn.
    + rewrite (size_union _ _ Hfresh), size_singleton. lia.
    + lia.
    + intros i [->%elem_of_singleton | Hin]%elem_of_union; [lia |].
      apply Hflight in Hin. lia.
    + intros i Hi Hout. apply Hfin; [| set_solver].
      assert (i ≠ Executor.next st) by set_solver. lia.
  - case_decide as Hin; [| discriminate].
    destruct (items !! i) as [x|] eqn:Hx; [| discriminate]. intros [= <-].
    split; cbn.
    + etrans; [| exact Hbound]. apply subseteq_size. set_solver.
    + exact Hnext.
    + intros j Hj. apply Hflight. set_solver.
    + intros j Hj Hout. destruct (decide (j = i)) as [-> | Hne].
      * by rewrite lookup_insert_eq, Hx.
      * rewrite lookup_insert_ne by done. apply Hfin; [done | set_solver].
Qed.

Lemma invariant_run schedule : ∀ st st',
  invariant st → run st schedule = Some st' → invariant st'.
Proof.
  induction schedule as [|ev schedule IH]; intros st st' Hinv; cbn.
  - by intros [= <-].
  - destruct (step st ev) as [st1|] eqn:Hstep; [| discriminate].
    apply IH. by eapply invariant_step.
Qed.

(** Once everything was dispatched and nothing is in flight, the results
    read back by position are the per-subject outcomes in input order. *)
Lemma gathered_terminal st :
  invariant st → Executor.terminal items st = true →
  Executor.gathered items st = Some (map task items).
Proof.
  intros [_ _ _ Hfin] [Hnext Hnone]%bool_decide_eq_true.
  unfold Executor.gathered. apply mapM_Some.
  apply Forall2_same_length_lookup_2.
  - by rewrite length_seq, length_map.
  - intros i j y [-> Hi]%lookup_seq Hy. cbn.
    rewrite Hfin; [| lia | rewrite Hnone; set_solver].
    change (map task items) with (task <$> items) in Hy.
    by rewrite list_lookup_fmap in Hy.
Qed.

(** The one-at-a-time schedule runs to a terminal state whenever a slot
    exists: the executor can always finish. *)
Lemma sequential_runs (count : nat) : ∀ st,
  0 < batch_size →
  Executor.in_flight st = ∅ →
  Executor.next st + count = length items →
  ∃ st', run st (Executor.sequential (Executor.next st) count) = Some st'
         ∧ Executor.terminal items st' = true.
Proof.
  induction count as [|count IH]; intros st Hpos Hnone Hlen.
  - exists st. split; [reflexivity |].
    apply bool_decide_eq_true. split; [lia | done].
  - unfold Executor.sequential. cbn [seq flat_map app Executor.run].
    cbn [Executor.step]. rewrite Hnone, size_empty.
    rewrite decide_True by (split; lia). cbn [Executor.step Executor.in_flight].
    rewrite decide_True by set_solver.
    destruct (lookup_lt_is_Some_2 items (Executor.next st)) as [x Hx]; [lia |].
    rewrite Hx. cbn [Executor.next].
    match goal with |- ∃ _, Executor.run _ _ _ ?s _ = _ ∧ _ =>
      destruct (IH s) as (st' & Hrun & Hterm) end.
    + exact Hpos.
    + cbn. set_solver.
    + cbn. lia.
    + exists st'. split; [exact Hrun | exact Hterm].
Qed.

End scheduling.

Section complete_runs.
Context {A R : Type}.
Variable task : A → outcome R.
Variable batch_size : nat.
Variable items : list A.

Local Abbreviation run := (Executor.run task batch_size items).
Local Abbreviation completes := (Executor.completes task batch_size items).

Lemma run_app schedule schedule' : ∀ st,
  run st (schedule ++ schedule')
  = match run st schedule with
    | Some st' => run st' schedule'
    | None => None
    end.
Proof.
  induction schedule as [|ev schedule IH]; intros st; cbn; [reflexivity |].
  destruct (Executor.step task batch_size items st ev); [apply IH | reflexivity].
Qed.

(** Every prefix of an admitted schedule is admitted, and the state it
    reaches keeps the bound. *)
Lemma run_prefix_bound schedule st k :
  run Executor.init schedule = Some st →
  ∃ st', run Executor.init (take k schedule) = Some st'
         ∧ size (Executor.in_flight st') ≤ batch_size.
Proof.
  intros Hrun. rewrite <- (take_drop k schedule), run_app in Hrun.
  destruct (run Executor.init (take k schedule)) as [st'|] eqn:Hprefix;
    [| discriminate].
  exists st'. split; [reflexivity |].
  apply (invariant_run _ _ _ _ _ _ (invariant_init _ _ _) Hprefix).
Qed.

(** What a complete run hands back does not depend on the interleaving. *)
Lemma batch_task_async_complete schedule task_argument prompt_target :
  completes schedule = true →
  batch_task_async schedule task task_argument prompt_target batch_size items
  = Some (collect_outcomes (map task items)).
Proof.
  unfold Executor.completes, batch_task_async.
  destruct (run Executor.init schedule) as [st|] eqn:Hrun; [| discriminate].
  intros Hterm. rewrite Hterm. unfold Executor.result.
  pose proof (invariant_run _ _ _ _ _ _ (invariant_init _ _ _) Hrun) as Hinv.
  by rewrite (gathered_terminal _ _ _ _ Hinv Hterm).
Qed.

Lemma batch_task_async_Some schedule task_argument prompt_target results :
  batch_task_async schedule task task_argument prompt_target batch_size items
  = Some results →
  completes schedule = true ∧ results = collect_outcomes (map task items).
Proof.
  intros Hcall.
  assert (Hcomplete : completes schedule = true).
  { unfold Executor.completes, batch_task_async in *.
    destruct (run Executor.init schedule) as [st|]; [| discriminate].
    by destruct (Executor.terminal items st). }
  split; [exact Hcomplete |].
  rewrite (batch_task_async_complete _ _ _ Hcomplete) in Hcall.
  by injection Hcall.
Qed.

(** With a slot to work in, the one-at-a-time schedule completes. *)
Lemma sequential_completes :
  0 < batch_size →
  completes (Executor.sequential 0 (length items)) = true.
Proof.
  intros Hpos.
  destruct (sequential_runs task batch_size items (length items)
              Executor.init Hpos eq_refl eq_refl) as (st & Hrun & Hterm).
  unfold Executor.completes. cbn in Hrun. by rewrite Hrun.
Qed.

(** Without any slot nothing can be dispatched: no schedule completes a
    batch that has a subject. *)
Lemma zero_slots_never_complete schedule :
  batch_size = 0 → items ≠ [] → completes schedule = false.
Proof.
  intros -> Hsome. unfold Executor.completes.
  destruct schedule as [|[|i] schedule]; cbn.
  - apply bool_decide_eq_false. intros [Hlen _]. cbn in Hlen.
    destruct items; [done | discriminate].
  - rewrite decide_False by lia. reflexivity.
  - rewrite decide_False by set_solver. reflexivity.
Qed.

End complete_runs.

(** C8.  [score_prompts_batch_async] passes [batch_size=10] to the batch
    helper when the caller gives none, whatever the helper is, and returns
    the helper's per-subject lists flattened left to right.  With the Batch
    Executor as the helper, a call returns a list exactly when the
    interleaving completes and [score_async] returns a score list for every
    subject, and the list is then the concatenation of those lists in the
    order of the subjects; for a positive batch size a completing
    interleaving exists. *)
Theorem score_prompts_batch_flattens_in_order {Score : Type}
    (self : Scorer Score) (prompts : list PromptRequestPiece)
    (batch_size : option nat) :
  (∀ batch_helper,
     score_prompts_batch_async batch_helper self prompts None
     = score_prompts_batch_async batch_helper self prompts (Some 10))
  ∧ (∀ batch_helper results,
       batch_helper (λ prompt, score_async self prompt None)
         "request_response" (_prompt_target self) (default 10 batch_size)
         prompts = Some (Return results) →
       score_prompts_batch_async batch_helper self prompts batch_size
       = Some (Return (concat results)))
  ∧ (∀ schedule flat,
       score_prompts_batch_async (batch_task_async schedule) self prompts
         batch_size = Some (Return flat)
       ↔ Executor.completes (λ prompt, score_async self prompt None)
           (default 10 batch_size) prompts schedule = true
         ∧ ∃ lists,
             Forall2
               (λ prompt scores, score_async self prompt None = Return scores)
               prompts lists
             ∧ flat = concat lists)
  ∧ (0 < default 10 batch_size →
     ∃ schedule,
       Executor.completes (λ prompt, score_async self prompt None)
         (default 10 batch_size) prompts schedule = true).
Proof.
  split_and!.
  - reflexivity.
  - intros batch_helper results Hhelper.
    unfold score_prompts_batch_async. cbn zeta. by rewrite Hhelper.
  - intros schedule flat. unfold score_prompts_batch_async. cbn zeta. split.
    + destruct (batch_task_async _ _ _ _ _ _) as [[lists|e]|] eqn:Hcall;
        try discriminate.
      intros [= <-].
      apply batch_task_async_Some in Hcall as [Hcomplete Hlists].
      split; [exact Hcomplete |]. exists lists. split; [| reflexivity].
      by apply collect_outcomes_return_inv.
    + intros (Hcomplete & lists & Hall & ->).
      rewrite (batch_task_async_complete _ _ _ _ _ _ Hcomplete).
      by rewrite (collect_outcomes_all_return _ _ _ Hall).
  - intros Hpos. eexists. by apply sequential_completes.
Qed.

(** C10.  When a batch call under some interleaving of dispatches and
    completions returns, then at every point of that interleaving the number
    of scoring calls in flight was at most [batch_size]; the result is the
    concatenation of the per-subject score lists in the order of the
    subjects; and any other interleaving that returns gives the same result,
    whichever calls complete first. *)
Theorem batch_bound_and_order {Score : Type} (self : Scorer Score)
    (prompts : list PromptRequestPiece) (batch_size : nat)
    (schedule : list Executor.event) (result : outcome (list Score)) :
  score_prompts_batch_async (batch_task_async schedule) self prompts
    (Some batch_size) = Some result →
  (∀ k, ∃ st,
     Executor.run (λ prompt, score_async self prompt None) batch_size prompts
       Executor.init (take k schedule) = Some st
     ∧ size (Executor.in_flight st) ≤ batch_size)
  ∧ (∀ lists,
       Forall2 (λ prompt scores, score_async self prompt None = Return scores)
         prompts lists →
       result = Return (concat lists))
  ∧ (∀ schedule' result',
       score_prompts_batch_async (batch_task_async schedule') self prompts
         (Some batch_size) = Some result' →
       result' = result).
Proof.
  unfold score_prompts_batch_async. cbn zeta. intros Hcall.
  destruct (batch_task_async schedule _ _ _ _ _) as [results|] eqn:Hbatch;
    [| discriminate].
  apply batch_task_async_Some in Hbatch as [Hcomplete ->].
  split_and!.
  - intros k. unfold Executor.completes in Hcomplete.
    destruct (Executor.run _ _ _ Executor.init schedule) as [st|] eqn:Hrun;
      [| discriminate].
    by eapply run_prefix_bound.
  - intros lists Hall.
    rewrite (collect_outcomes_all_return _ _ _ Hall) in Hcall.
    by injection Hcall as <-.
  - intros schedule' result' Hcall'.
    destruct (batch_task_async schedule' _ _ _ _ _) as [results'|] eqn:Hbatch';
      [| discriminate].
    apply batch_task_async_Some in Hbatch' as [_ ->].
    rewrite Hcall in Hcall'. by injection Hcall'.
Qed.

(** * Concrete runs *)

Local Abbreviation attempt ty text category :=
  (send_chat_target_async_body (H := Reference.runtime) (scorer_of ty)
     (judge_says (Reference.json_text text)) request "prompt-1" category None fresh).
Local Abbreviation call budget ty text category :=
  (send_chat_target_async (H := Reference.runtime) budget (scorer_of ty)
     (judge_says (Reference.json_text text)) request "prompt-1" category None fresh).

Lemma judge_says_answers (text : string) (st : JudgeState) :
  answers (judge_says text) request st text.
Proof. by exists {| request_pieces := [piece_of text] |}, (piece_of text), []. Defined.

(** C1 at a concrete call: the caller passes ["harm"], the judge answers
    with category ["other"]. *)
Lemma ambiguous_category_example :
  attempt true_false
    "{'score_value': 'true', 'rationale': 'r', 'category': 'other'}"
    (Some "harm")
  = (Raise ambiguous_category, {| sent := 1; built := 0 |})
  ∧ call 5 true_false
      "{'score_value': 'true', 'rationale': 'r', 'category': 'other'}"
      (Some "harm")
    = (Raise ambiguous_category, {| sent := 1; built := 0 |})
  ∧ recoverable ambiguous_category = false.
Proof.
  eapply (ambiguous_category_is_fatal (H := Reference.runtime)).
  - apply judge_says_answers.
  - vm_compute. reflexivity.
  - vm_compute. reflexivity.
  - reflexivity.
  - discriminate.
Defined.

(** C3 at a concrete call: the judge answers in prose. *)
Lemma invalid_json_example :
  attempt true_false "I would rate this a 4." None
  = (Raise (InvalidJsonException
              "Invalid JSON response: I would rate this a 4."),
     {| sent := 1; built := 0 |})
  ∧ contains "Invalid JSON response: I would rate this a 4."
      "I would rate this a 4."
  ∧ recoverable (InvalidJsonException
                   "Invalid JSON response: I would rate this a 4.") = true
  ∧ (∀ max_attempts, max_attempts ≤ 1 →
       call max_attempts true_false "I would rate this a 4." None
       = (Raise (InvalidJsonException
                   "Invalid JSON response: I would rate this a 4."),
          {| sent := 1; built := 0 |}))
  ∧ (∀ n,
       call (S (S n)) true_false "I would rate this a 4." None
       = send_chat_target_async (H := Reference.runtime) (S n)
           (scorer_of true_false)
           (judge_says (Reference.json_text "I would rate this a 4."))
           request "prompt-1" None None {| sent := 1; built := 0 |}).
Proof.
  apply (invalid_json_is_recoverable (H := Reference.runtime)
           (scorer_of true_false)
           (judge_says (Reference.json_text "I would rate this a 4."))
           request "prompt-1" None None fresh "I would rate this a 4.").
  - apply judge_says_answers.
  - vm_compute. reflexivity.
Defined.

(** The retry budget at work: three attempts configured, the judge never
    answers in JSON; three prompts are sent and the last failure, raw text
    included, is raised. *)
Example retry_budget_exhausted :
  call 3 true_false "I would rate this a 4." None
  = (Raise (InvalidJsonException
              "Invalid JSON response: I would rate this a 4."),
     {| sent := 3; built := 0 |}).
Proof. vm_compute. reflexivity. Qed.

(** A judge that answers in prose first and in JSON from the second prompt
    on: the second attempt's score is returned. *)
Example retry_then_success :
  ∃ score,
    send_chat_target_async (H := Reference.runtime) 3 (scorer_of true_false)
      (λ n _, Return {| request_pieces :=
         [piece_of (match n with
                    | O => "Let me think."
                    | S _ => Reference.json_text
                               "{'score_value': 'true', 'rationale': 'x'}"
                    end)] |})
      request "prompt-1" None None fresh
    = (Return score, {| sent := 2; built := 1 |})
    ∧ raw_score_value score = "true".
Proof. eexists. split; vm_compute; reflexivity. Qed.

(** C5 at a concrete call: the judge answers with a JSON list. *)
Lemma non_object_example :
  attempt true_false "[1, 2]" None
  = (Raise (AttributeError "'list' object has no attribute 'get'"),
     {| sent := 1; built := 0 |})
  ∧ call 5 true_false "[1, 2]" None
    = (Raise (AttributeError "'list' object has no attribute 'get'"),
       {| sent := 1; built := 0 |})
  ∧ is_InvalidJsonException
      (AttributeError "'list' object has no attribute 'get'") = false
  ∧ is_ValueError
      (AttributeError "'list' object has no attribute 'get'") = false.
Proof.
  apply (non_object_escapes_handlers (H := Reference.runtime)
           (scorer_of true_false) (judge_says (Reference.json_text "[1, 2]"))
           request "prompt-1" None 5 None fresh "[1, 2]"
           (JArray [JInt 1; JInt 2])).
  - apply judge_says_answers.
  - vm_compute. reflexivity.
  - reflexivity.
Defined.

(** C2 as stated fails: ["inf"] and ["nan"] are no finite reals, yet a
    [float_scale] scorer gets its score back, with no failure and no retry. *)
Lemma inf_and_nan_pass_the_float_check :
  parses_as_finite_real "inf" = false
  ∧ parses_as_finite_real "nan" = false
  ∧ (∃ score,
       call 3 float_scale "{'score_value': 'inf', 'rationale': 'x'}" None
       = (Return score, {| sent := 1; built := 1 |})
       ∧ raw_score_value score = "inf")
  ∧ (∃ score,
       call 3 float_scale "{'score_value': 'nan', 'rationale': 'x'}" None
       = (Return score, {| sent := 1; built := 1 |})
       ∧ raw_score_value score = "nan").
Proof.
  split_and!; try reflexivity; eexists; split; vm_compute; reflexivity.
Qed.

(** C2 as the code has it, at two concrete calls: ["0.8"] is accepted and
    kept as the raw value, ["high"] is refused. *)
Lemma float_scale_example :
  (∃ score,
     attempt float_scale "{'score_value': '0.8', 'rationale': 'y'}" None
     = (Return score, {| sent := 1; built := 1 |})
     ∧ raw_score_value score = "0.8")
  ∧ (∃ score,
       attempt float_scale "{'score_value': 'high', 'rationale': 'y'}" None
       = (Raise (not_a_float score), {| sent := 1; built := 1 |})
       ∧ raw_score_value score = "high"
       ∧ recoverable (not_a_float score) = true).
Proof.
  split.
  - destruct (float_scale_checks_python_float (H := Reference.runtime)
                (scorer_of float_scale)
                (judge_says (Reference.json_text
                   "{'score_value': '0.8', 'rationale': 'y'}"))
                request "prompt-1" None None fresh
                (Reference.json_text "{'score_value': '0.8', 'rationale': 'y'}")
                {["score_value" := JString "0.8"; "rationale" := JString "y"]}
                (JString "0.8") (JString "y"))
      as (Hraw & Hbody & _).
    + apply judge_says_answers.
    + vm_compute. reflexivity.
    + reflexivity.
    + reflexivity.
    + reflexivity.
    + reflexivity.
    + eexists. split; [exact Hbody | exact Hraw].
  - destruct (float_scale_checks_python_float (H := Reference.runtime)
                (scorer_of float_scale)
                (judge_says (Reference.json_text
                   "{'score_value': 'high', 'rationale': 'y'}"))
                request "prompt-1" None None fresh
                (Reference.json_text "{'score_value': 'high', 'rationale': 'y'}")
                {["score_value" := JString "high"; "rationale" := JString "y"]}
                (JString "high") (JString "y"))
      as (Hraw & Hbody & Hrec).
    + apply judge_says_answers.
    + vm_compute. reflexivity.
    + reflexivity.
    + reflexivity.
    + reflexivity.
    + reflexivity.
    + eexists. split; [exact Hbody |]. split; [exact Hraw | exact Hrec].
Defined.

(** C4 as stated fails: the response lacks both required keys, but it carries
    a category and so does the call; the category check comes first and its
    [ValueError] is what is raised, not [InvalidJsonException]. *)
Lemma missing_key_behind_category_clash :
  Reference.ref_json_loads (Reference.json_text "{'category': 'other'}")
  = Some (JObject {["category" := JString "other"]})
  ∧ attempt true_false "{'category': 'other'}" (Some "harm")
    = (Raise ambiguous_category, {| sent := 1; built := 0 |})
  ∧ call 3 true_false "{'category': 'other'}" (Some "harm")
    = (Raise ambiguous_category, {| sent := 1; built := 0 |})
  ∧ is_InvalidJsonException ambiguous_category = false.
Proof. split_and!; vm_compute; reflexivity. Qed.

(** C4 as the code has it, at two concrete calls: a response without
    [rationale], and a response that gives a description and leaves category
    and metadata out. *)
Lemma missing_key_example :
  (attempt true_false "{'score_value': 'true'}" None
   = (Raise (missing_key (Reference.json_text "{'score_value': 'true'}")),
      {| sent := 1; built := 0 |})
   ∧ recoverable
       (missing_key (Reference.json_text "{'score_value': 'true'}")) = true)
  ∧ (∃ score,
       attempt true_false
         "{'score_value': 'true', 'rationale': 'x', 'description': 'fine'}"
         None
       = (Return score, {| sent := 1; built := 1 |})
       ∧ score_category score = JNull
       ∧ score_value_description score = JString "fine"
       ∧ score_metadata score = JNull).
Proof.
  split.
  - destruct (missing_key_is_recoverable (H := Reference.runtime)
                (scorer_of true_false)
                (judge_says (Reference.json_text "{'score_value': 'true'}"))
                request "prompt-1" None None fresh
                (Reference.json_text "{'score_value': 'true'}")
                {["score_value" := JString "true"]})
      as [Hmissing _].
    + apply judge_says_answers.
    + vm_compute. reflexivity.
    + reflexivity.
    + destruct Hmissing as (Hbody & _ & Hrec); [by right |].
      split; [exact Hbody | exact Hrec].
  - destruct (missing_key_is_recoverable (H := Reference.runtime)
                (scorer_of true_false)
                (judge_says (Reference.json_text
                   "{'score_value': 'true', 'rationale': 'x', 'description': 'fine'}"))
                request "prompt-1" None None fresh
                (Reference.json_text
                   "{'score_value': 'true', 'rationale': 'x', 'description': 'fine'}")
                {["score_value" := JString "true"; "rationale" := JString "x";
                  "description" := JString "fine"]})
      as [_ Hoptional].
    + apply judge_says_answers.
    + vm_compute. reflexivity.
    + reflexivity.
    + destruct (Hoptional (JString "true") (JString "x"))
        as (Hbody & Hcat & _ & Hmeta); [reflexivity | reflexivity | by left |].
      eexists. split; [exact Hbody |]. split_and!.
      * exact (Hcat eq_refl).
      * reflexivity.
      * exact (Hmeta eq_refl).
Defined.

(** C6 as stated fails: the judge sends an empty rationale, then a null one;
    each time the score comes back carrying it. *)
Lemma empty_rationale_is_returned :
  (∃ score,
     call 3 true_false "{'score_value': 'true', 'rationale': ''}" None
     = (Return score, {| sent := 1; built := 1 |})
     ∧ score_rationale score = JString "")
  ∧ (∃ score,
       call 3 true_false "{'score_value': 'true', 'rationale': null}" None
       = (Return score, {| sent := 1; built := 1 |})
       ∧ score_rationale score = JNull).
Proof. split; eexists; split; vm_compute; reflexivity. Qed.

(** C6 as the code has it, at two concrete calls: a rationale of
    whitespace is stored as it came; a response without rationale that
    clashes on the category raises the [ValueError]. *)
Lemma rationale_example :
  (∃ score,
     attempt float_scale "{'score_value': 3, 'rationale': ' '}" None
     = (Return score, {| sent := 1; built := 1 |})
     ∧ score_rationale score = JString " "
     ∧ raw_score_value score = "3")
  ∧ attempt true_false "{'score_value': 'true', 'category': 'other'}"
      (Some "harm")
    = (Raise ambiguous_category, {| sent := 1; built := 0 |}).
Proof.
  split.
  - destruct (rationale_is_stored_as_given (H := Reference.runtime)
                (scorer_of float_scale)
                (judge_says (Reference.json_text
                   "{'score_value': 3, 'rationale': ' '}"))
                request "prompt-1" None None fresh
                (Reference.json_text "{'score_value': 3, 'rationale': ' '}")
                {["score_value" := JInt 3; "rationale" := JString " "]})
      as (_ & _ & Hstored).
    + apply judge_says_answers.
    + vm_compute. reflexivity.
    + destruct (Hstored (JInt 3) (JString " ")) as [Hbody Hra];
        [reflexivity | reflexivity | reflexivity | by right |].
      eexists. split; [exact Hbody |]. split; [exact Hra | reflexivity].
  - destruct (rationale_is_stored_as_given (H := Reference.runtime)
                (scorer_of true_false)
                (judge_says (Reference.json_text
                   "{'score_value': 'true', 'category': 'other'}"))
                request "prompt-1" (Some "harm") None fresh
                (Reference.json_text
                   "{'score_value': 'true', 'category': 'other'}")
                {["score_value" := JString "true";
                  "category" := JString "other"]})
      as (Hmissing & _ & _).
    + apply judge_says_answers.
    + vm_compute. reflexivity.
    + exact (Hmissing eq_refl).
Defined.

(** C7 at concrete values: three stars between one and five is a half; an
    empty range gives zero. *)
Lemma scale_value_float_example :
  scale_value_float 3 1 5 = 0.5%float
  ∧ scale_value_float 7 2 2 = 0%float.
Proof.
  destruct (scale_value_float_cases 3 1 5) as [Hscaled _].
  destruct (scale_value_float_cases 7 2 2) as [_ Hflat].
  split; [rewrite Hscaled | rewrite Hflat]; reflexivity.
Defined.

(** C9 at two instances that differ in their [scorer_type]. *)
Lemma get_identifier_example :
  scorer_of true_false ≠ scorer_of float_scale
  ∧ get_identifier (scorer_of true_false) !! "__type__"
    = Some (Some "SelfAskLikertScorer")
  ∧ get_identifier (scorer_of true_false) !! "__module__"
    = Some (Some "pyrit.score.self_ask_likert_scorer")
  ∧ get_identifier (scorer_of true_false) !! "sub_identifier" = Some None
  ∧ dom (get_identifier (scorer_of true_false))
    = {["__type__"; "__module__"; "sub_identifier"]}
  ∧ get_identifier (scorer_of true_false)
    = get_identifier (scorer_of float_scale).
Proof.
  split; [discriminate |].
  apply (get_identifier_is_structural
           (scorer_of true_false) (scorer_of float_scale)).
  reflexivity.
Defined.

(** C8 at three subjects: a helper that reports the batch size it is given,
    then the executor under an interleaving that completes the second
    subject first. *)
Lemma score_prompts_batch_example :
  score_prompts_batch_async batch_size_probe (scorer_of true_false)
    [piece_of "a"; piece_of "b"; piece_of "c"] None
  = Some (Raise (OtherError "batch_size" "10"))
  ∧ score_prompts_batch_async
      (batch_task_async
         [Executor.Dispatch; Executor.Dispatch; Executor.Complete 1;
          Executor.Dispatch; Executor.Complete 0; Executor.Complete 2])
      (scorer_of true_false) [piece_of "a"; piece_of "b"; piece_of "c"] None
    = Some (Return ["a/first"; "a/second"; "b/first"; "b/second";
                    "c/first"; "c/second"]).
Proof.
  destruct (score_prompts_batch_flattens_in_order (scorer_of true_false)
              [piece_of "a"; piece_of "b"; piece_of "c"] None)
    as (Hdefault & _ & Hexecutor & _).
  split.
  - rewrite Hdefault. reflexivity.
  - apply Hexecutor. split; [vm_compute; reflexivity |].
    exists [["a/first"; "a/second"]; ["b/first"; "b/second"];
            ["c/first"; "c/second"]].
    split; [repeat constructor | reflexivity].
Defined.

(** C10 at 25 subjects and a batch size of 10: the call returns the fifty
    scores in the order of the subjects, every prefix of the interleaving
    keeps at most ten calls in flight, ten are in flight after the first ten
    dispatches, and the one-at-a-time interleaving gives the same result. *)
Lemma batch_example :
  score_prompts_batch_async (batch_task_async schedule)
    (scorer_of true_false) subjects (Some 10)
  = Some (Return expected_scores)
  ∧ (∀ k, ∃ st,
       Executor.run (λ prompt, score_async (scorer_of true_false) prompt None)
         10 subjects Executor.init (take k schedule) = Some st
       ∧ size (Executor.in_flight st) ≤ 10)
  ∧ (∃ st,
       Executor.run (λ prompt, score_async (scorer_of true_false) prompt None)
         10 subjects Executor.init (take 10 schedule) = Some st
       ∧ size (Executor.in_flight st) = 10)
  ∧ score_prompts_batch_async (batch_task_async (Executor.sequential 0 25))
      (scorer_of true_false) subjects (Some 10)
    = Some (Return expected_scores).
Proof.
  assert (Hcall : score_prompts_batch_async (batch_task_async schedule)
                    (scorer_of true_false) subjects (Some 10)
                  = Some (Return expected_scores))
    by (vm_compute; reflexivity).
  destruct (batch_bound_and_order (scorer_of true_false) subjects 10
              schedule (Return expected_scores) Hcall)
    as (Hbound & _ & Hsame).
  split_and!.
  - exact Hcall.
  - exact Hbound.
  - eexists. split; vm_compute; reflexivity.
  - assert (Hother : score_prompts_batch_async
                       (batch_task_async (Executor.sequential 0 25))
                       (scorer_of true_false) subjects (Some 10)
                     = Some (Return expected_scores))
      by (vm_compute; reflexivity).
    exact Hother.
Defined.

(** With the eleventh dispatch before any completion the schedule is
    refused: no slot is free. *)
Example eleventh_dispatch_refused :
  Executor.run (λ prompt, score_async (scorer_of true_false) prompt None)
    10 subjects Executor.init (replicate 11 Executor.Dispatch) = None.
Proof. vm_compute. reflexivity. Qed.

(** A batch size of zero completes nothing: the call hands nothing back. *)
Example zero_batch_size_hands_nothing_back :
  score_prompts_batch_async (batch_task_async schedule)
    (scorer_of true_false) subjects (Some 0) = None.
Proof. vm_compute. reflexivity. Qed.

Section attempt_inversion.
Context `{PyRuntime} {Score : Type}.
Variable self : Scorer Score.
Variable prompt_target : PromptChatTarget.
Variable scorer_llm_request : PromptRequestResponse.
Variable scored_prompt_id : string.
Variable category : option string.
Variable objective : option string.

Local Abbreviation body :=
  (send_chat_target_async_body self prompt_target scorer_llm_request
     scored_prompt_id category objective).
Local Abbreviation judge_answers := (answers prompt_target scorer_llm_request).
Local Abbreviation the_score :=
  (score_from self scored_prompt_id category objective).
Local Abbreviation case_of :=
  (attempt_case self prompt_target scorer_llm_request scored_prompt_id
     category objective).

(** The first piece of the answer to a prompt is determined by the state. *)
Lemma answers_functional st raw raw' :
  judge_answers st raw → judge_answers st raw' → raw = raw'.
Proof.
  intros (r1 & p1 & l1 & Hs1 & Hp1 & <-) (r2 & p2 & l2 & Hs2 & Hp2 & <-).
  rewrite Hs1 in Hs2. injection Hs2 as <-.
  rewrite Hp1 in Hp2. by injection Hp2 as <- _.
Qed.

(** Whatever the target does, an attempt ends in one of the cases. *)
Lemma body_case st : case_of st (body st).1 (body st).2.
Proof.
  destruct (prompt_target (sent st) scorer_llm_request) as [response|e]
    eqn:Hsend.
  - destruct (request_pieces response) as [|piece rest] eqn:Hpieces.
    + replace (body st)
        with (Raise (A := UnvalidatedScore)
                (IndexError "list index out of range"), after_send st).
      * by eapply no_piece.
      * unfold send_chat_target_async_body, mbind, task_bind, bind,
          send_prompt_async, lift, first_converted_value.
        by rewrite Hsend, Hpieces.
    + assert (Hans : judge_answers st (converted_value piece)).
      { by exists response, piece, rest. }
      destruct (json_loads (converted_value piece)) as [v|] eqn:Hloads.
      * destruct (is_dict v) eqn:Hdict.
        -- destruct v as [| | | | | |m]; try discriminate Hdict.
           rewrite (body_on_object self prompt_target scorer_llm_request
                      scored_prompt_id category objective _ _ _ Hans Hloads).
           destruct (category_clash category m) eqn:Hclash;
             [by eapply categories_clash |].
           destruct (m !! "score_value") as [sv|] eqn:Hsv;
             [| eapply key_missing; eauto].
           destruct (m !! "rationale") as [ra|] eqn:Hra;
             [| eapply key_missing; eauto].
           cbn zeta.
           destruct (scorer_type self) eqn:Hty;
             [eapply scored; eauto |].
           destruct (float_accepts (py_str sv)) eqn:Hok;
             [eapply scored; eauto | eapply float_refused; eauto].
        -- rewrite (body_unfold self prompt_target scorer_llm_request
                      scored_prompt_id category objective _ _ Hans).
           rewrite (parse_non_object self scored_prompt_id category objective
                      _ _ v Hloads); [by eapply not_object |].
           intros m ->. discriminate Hdict.
      * rewrite (body_unfold self prompt_target scorer_llm_request
                   scored_prompt_id category objective _ _ Hans).
        rewrite (parse_invalid self scored_prompt_id category objective
                   _ _ Hloads).
        by eapply not_json.
  - replace (body st) with (Raise (A := UnvalidatedScore) e, after_send st).
    + by eapply target_failed.
    + unfold send_chat_target_async_body, mbind, task_bind, bind,
        send_prompt_async.
      by rewrite Hsend.
Qed.

End attempt_inversion.

(** * Further properties of one attempt *)

Section attempt_properties.
Context `{PyRuntime} {Score : Type}.
Variable self : Scorer Score.
Variable prompt_target : PromptChatTarget.
Variable scorer_llm_request : PromptRequestResponse.
Variable scored_prompt_id : string.
Variable category : option string.
Variable objective : option string.

Local Abbreviation body :=
  (send_chat_target_async_body self prompt_target scorer_llm_request
     scored_prompt_id category objective).
Local Abbreviation judge_answers := (answers prompt_target scorer_llm_request).
Local Abbreviation the_score :=
  (score_from self scored_prompt_id category objective).
Local Abbreviation case_of :=
  (attempt_case self prompt_target scorer_llm_request scored_prompt_id
     category objective).

(** X1.  Whatever the target answers, one attempt sends exactly one prompt
    and calls the [UnvalidatedScore] constructor at most once; an attempt
    that returns a score has called it exactly once. *)
Theorem attempt_sends_one_prompt (st : JudgeState) :
  sent (body st).2 = S (sent st)
  ∧ (built (body st).2 = built st ∨ built (body st).2 = S (built st))
  ∧ (∀ score, (body st).1 = Return score →
       built (body st).2 = S (built st)).
Proof.
  pose proof (body_case self prompt_target scorer_llm_request
                scored_prompt_id category objective st) as Hcase.
  destruct (body st) as [o st']. cbn [fst snd] in *.
  destruct Hcase; cbn; split_and!; auto; intros score' [=].
Qed.

(** X2.  An attempt returns a score only when the judge answered with a
    first piece whose text parses to an object that holds [score_value] and
    [rationale] and does not clash on the category; the score is then the one
    built from that object, one score was built, and for a [float_scale]
    scorer Python's [float] accepts its raw value. *)
Theorem returned_score_comes_from_an_object
    (st st' : JudgeState) (score : UnvalidatedScore) :
  body st = (Return score, st') →
  ∃ raw m score_value rationale,
    judge_answers st raw
    ∧ json_loads raw = Some (JObject m)
    ∧ category_clash category m = false
    ∧ m !! "score_value" = Some score_value
    ∧ m !! "rationale" = Some rationale
    ∧ score = the_score m score_value rationale
    ∧ (scorer_type self = float_scale →
       float_accepts (raw_score_value score) = true)
    ∧ st' = after_build st.
Proof.
  intros Hbody.
  pose proof (body_case self prompt_target scorer_llm_request
                scored_prompt_id category objective st) as Hcase.
  rewrite Hbody in Hcase. cbn [fst snd] in Hcase.
  inversion Hcase as [| | | | | | |raw m sv ra Hans Hloads Hclash Hsv Hra Hcheck];
    subst.
  exists raw, m, sv, ra. split_and!; try done.
  intros Hty. destruct Hcheck as [Htf | Hok]; [congruence | exact Hok].
Qed.

(** X3.  Once the judge has answered with a first piece, a [KeyError] or a
    [json.JSONDecodeError] never leaves the function: both [except] clauses
    turn them into [InvalidJsonException]; and every [InvalidJsonException]
    raised before a score is built carries the raw response text in its
    message. *)
Theorem failures_after_an_answer
    (st st' : JudgeState) (raw : string) (e : exn) :
  judge_answers st raw →
  body st = (Raise e, st') →
  (∀ key, e ≠ KeyError key)
  ∧ e ≠ JSONDecodeError
  ∧ (built st' = built st →
     is_InvalidJsonException e = true →
     contains (exn_message e) raw).
Proof.
  intros Hans Hbody.
  pose proof (body_case self prompt_target scorer_llm_request
                scored_prompt_id category objective st) as Hcase.
  rewrite Hbody in Hcase. cbn [fst snd] in Hcase.
  destruct Hans as (response & piece & rest & Hsend & Hpieces & Hraw).
  assert (Hans : judge_answers st raw) by (by exists response, piece, rest).
  inversion Hcase as
    [e' Hfail
    |response' Hsend' Hnone
    |raw' Hans' Hloads
    |raw' v Hans' Hloads Hdict
    |raw' m Hans' Hloads Hclash
    |raw' m Hans' Hloads Hclash Hmiss
    |raw' m sv ra Hans' Hloads Hclash Hsv Hra Hty Hok
    |]; subst;
    try (pose proof (answers_functional _ _ _ _ _ Hans Hans') as <-).
  - congruence.
  - rewrite Hsend in Hsend'. injection Hsend' as <-. congruence.
  - split_and!; [done | done |]. intros _ _.
    exists "Invalid JSON response: ", "". cbn [exn_message].
    by rewrite append_empty_r.
  - split_and!; [done | done |]. intros _ [=].
  - split_and!; [done | done |]. intros _ [=].
  - split_and!; [done | done |]. intros _ _.
    exists "Invalid JSON response, missing Key: ", "".
    unfold missing_key. cbn [exn_message]. by rewrite append_empty_r.
  - split_and!; [done | done |]. cbn. intros Hbuilt. lia.
Qed.

(** X4.  An answer without any request piece makes the attempt raise
    [IndexError] after the prompt was sent: no [except] clause catches it,
    nothing is parsed and no score is built. *)
Theorem empty_response_raises_index_error
    (st : JudgeState) (response : PromptRequestResponse) :
  prompt_target (sent st) scorer_llm_request = Return response →
  request_pieces response = [] →
  body st = (Raise (IndexError "list index out of range"), after_send st).
Proof.
  intros Hsend Hnone.
  unfold send_chat_target_async_body, mbind, task_bind, bind,
    send_prompt_async, lift, first_converted_value.
  by rewrite Hsend, Hnone.
Qed.

(** X5.  The category of a returned score has one source: when the
    response's [category] counts as true the score carries it and the caller
    passed none (or an empty one); otherwise the score carries the caller's
    argument, [None] included, and a response category that counts as false
    (an empty string, [null], [0], [false]) is dropped. *)
Theorem category_has_one_source
    (st st' : JudgeState) (raw : string) (m : gmap string json)
    (score : UnvalidatedScore) :
  judge_answers st raw →
  json_loads raw = Some (JObject m) →
  body st = (Return score, st') →
  (truthy (default JNull (m !! "category")) = true →
     score_category score = default JNull (m !! "category")
     ∧ truthy (of_optional_str category) = false)
  ∧ (truthy (default JNull (m !! "category")) = false →
     score_category score = of_optional_str category).
Proof.
  intros Hans Hloads Hbody.
  rewrite (body_on_object self prompt_target scorer_llm_request
             scored_prompt_id category objective _ _ _ Hans Hloads) in Hbody.
  destruct (category_clash category m) eqn:Hclash; [discriminate |].
  destruct (m !! "score_value") as [sv|]; [| discriminate].
  destruct (m !! "rationale") as [ra|]; [| discriminate].
  assert (Hscore : score = the_score m sv ra).
  { cbn zeta in Hbody. destruct (scorer_type self).
    - by injection Hbody as <- _.
    - destruct (float_accepts (py_str sv)); [| discriminate].
      by injection Hbody as <- _. }
  subst score. unfold score_from, resolved_category. cbn.
  unfold category_clash in Hclash.
  split; intros Htruthy; rewrite Htruthy in *; [| reflexivity].
  split; [reflexivity | exact Hclash].
Qed.

(** X10.  For the optional keys an explicit [null] is the same as no entry:
    two answers whose objects differ only in that one gives [category],
    [description] or [metadata] as [null] and the other leaves it out lead
    to the same returned score. *)
Theorem null_is_absent
    (other_target : PromptChatTarget) (st st' : JudgeState)
    (raw raw' : string) (m : gmap string json) (key : string)
    (score : UnvalidatedScore) :
  key = "category" ∨ key = "description" ∨ key = "metadata" →
  m !! key = None →
  judge_answers st raw →
  json_loads raw = Some (JObject m) →
  answers other_target scorer_llm_request st raw' →
  json_loads raw' = Some (JObject (<[key := JNull]> m)) →
  body st = (Return score, st')
  ↔ send_chat_target_async_body self other_target scorer_llm_request
      scored_prompt_id category objective st = (Return score, st').
Proof.
  intros Hkey Hnone Hans Hloads Hans' Hloads'.
  rewrite (body_on_object self prompt_target scorer_llm_request
             scored_prompt_id category objective _ _ _ Hans Hloads).
  rewrite (body_on_object self other_target scorer_llm_request
             scored_prompt_id category objective _ _ _ Hans' Hloads').
  assert (Hget : ∀ k, default JNull (<[key := JNull]> m !! k)
                      = default JNull (m !! k)).
  { intros k. destruct (decide (key = k)) as [<- | Hne].
    - by rewrite lookup_insert_eq, Hnone.
    - by rewrite lookup_insert_ne. }
  assert (Hsv : <[key := JNull]> m !! "score_value" = m !! "score_value").
  { apply lookup_insert_ne. by destruct Hkey as [-> | [-> | ->]]. }
  assert (Hra : <[key := JNull]> m !! "rationale" = m !! "rationale").
  { apply lookup_insert_ne. by destruct Hkey as [-> | [-> | ->]]. }
  unfold category_clash, score_from, resolved_category.
  rewrite Hsv, Hra, !Hget.
  destruct (truthy (default JNull (m !! "category"))
            && truthy (of_optional_str category)); [done |].
  destruct (m !! "score_value") as [sv|]; [| done].
  destruct (m !! "rationale") as [ra|]; [| done].
  cbn zeta. destruct (scorer_type self); [done |].
  by destruct (float_accepts (py_str sv)).
Qed.

End attempt_properties.

(** X6.  A [true_false] scorer never calls [float]: whatever [float] would
    accept or refuse, the attempt is the same, so no domain check is made on
    the score value of a [true_false] scorer here. *)
Theorem true_false_skips_float_check
    (rt : PyRuntime) {Score : Type} (self : Scorer Score)
    (prompt_target : PromptChatTarget)
    (scorer_llm_request : PromptRequestResponse) (scored_prompt_id : string)
    (category objective : option string) (accepts : string → bool)
    (st : JudgeState) :
  scorer_type self = true_false →
  send_chat_target_async_body (H := with_float_accepts rt accepts) self
    prompt_target scorer_llm_request scored_prompt_id category objective st
  = send_chat_target_async_body (H := rt) self prompt_target
      scorer_llm_request scored_prompt_id category objective st.
Proof.
  intros Hty.
  unfold send_chat_target_async_body, float_check. rewrite Hty. reflexivity.
Qed.

(** X11.  Of the judge's answer only the converted text of the first piece
    is read: two targets (and two requests) whose answers agree on it give
    the same attempt, whatever else the responses hold. *)
Theorem only_first_converted_value_is_read
    `{PyRuntime} {Score : Type} (self : Scorer Score)
    (prompt_target prompt_target' : PromptChatTarget)
    (scorer_llm_request scorer_llm_request' : PromptRequestResponse)
    (scored_prompt_id : string) (category objective : option string)
    (st : JudgeState) (raw : string) :
  answers prompt_target scorer_llm_request st raw →
  answers prompt_target' scorer_llm_request' st raw →
  send_chat_target_async_body self prompt_target scorer_llm_request
    scored_prompt_id category objective st
  = send_chat_target_async_body self prompt_target' scorer_llm_request'
      scored_prompt_id category objective st.
Proof.
  intros Hans Hans'.
  by rewrite (body_unfold self prompt_target scorer_llm_request
                scored_prompt_id category objective _ _ Hans),
             (body_unfold self prompt_target' scorer_llm_request'
                scored_prompt_id category objective _ _ Hans').
Qed.

(** * Further properties of the helpers *)

Lemma get_identifier_lookups {Score : Type} (self : Scorer Score) :
  get_identifier self !! "__type__" = Some (Some (cls_name (scorer_class self)))
  ∧ get_identifier self !! "__module__"
    = Some (Some (cls_module (scorer_class self))).
Proof.
  unfold get_identifier. cbn zeta. split.
  - rewrite lookup_insert_ne by done. rewrite lookup_insert_ne by done.
    apply lookup_insert_eq.
  - rewrite lookup_insert_ne by done. apply lookup_insert_eq.
Qed.

(** X7.  The identifier tells classes apart: two scorers get the same
    identifier exactly when they have the same class name and module. *)
Theorem get_identifier_tells_classes_apart {Score : Type}
    (a b : Scorer Score) :
  get_identifier a = get_identifier b ↔ scorer_class a = scorer_class b.
Proof.
  split.
  - intros Heq.
    destruct (get_identifier_lookups a) as [Hta Hma].
    destruct (get_identifier_lookups b) as [Htb Hmb].
    rewrite Heq, Htb in Hta. rewrite Heq, Hmb in Hma.
    destruct (scorer_class a), (scorer_class b). cbn in *. congruence.
  - intros Heq. unfold get_identifier. by rewrite Heq.
Qed.

(** X8.  [score_text_async] and [score_image_async] hand [score_async] the
    piece they built with its id set to [None], whatever id the constructor
    assigned: for every scorer the call is [score_async] on the constructed
    piece (role ["user"], the text, or for an image the path as original and
    converted value with both data types ["image_path"]) with the id cleared,
    and the task passed on. *)
Theorem helpers_discard_the_id
    (new_piece : PieceConstructor) (content : string)
    (objective : option string) :
  (∃ piece,
     piece = set_id (new_piece "user" content None None None) None
     ∧ id piece = None
     ∧ ∀ (Score : Type) (self : Scorer Score),
         score_text_async new_piece self content objective
         = score_async self piece objective)
  ∧ (∃ piece,
       piece = set_id (new_piece "user" content (Some content)
                         (Some "image_path") (Some "image_path")) None
       ∧ id piece = None
       ∧ ∀ (Score : Type) (self : Scorer Score),
           score_image_async new_piece self content objective
           = score_async self piece objective).
Proof.
  split; eexists; split_and!; reflexivity.
Qed.

(** ** [scale_value_float] and NaN *)

Lemma SFeqb_self_false (s : spec_float) : SFeqb s s = false → s = S754_nan.
Proof.
  destruct s as [b|b| |b m e]; cbn; try discriminate; try reflexivity.
  - destruct b; discriminate.
  - unfold SFeqb. cbn. rewrite Z.compare_refl, Pos.compare_cont_refl.
    destruct b; discriminate.
Qed.

Lemma is_nan_Prim2SF (x : float) :
  PrimFloat.is_nan x = true ↔ Prim2SF x = S754_nan.
Proof.
  unfold PrimFloat.is_nan. rewrite FloatAxioms.eqb_spec. split.
  - intros Hnan. apply SFeqb_self_false. by destruct (SFeqb _ _).
  - intros ->. reflexivity.
Qed.

(** X9.  NaN bounds do not take the equal-bounds exit ([nan == nan] is
    false) and the result is then NaN; bounds that are equal and not NaN give
    [0.0] for every value, NaN and the infinities included. *)
Theorem scale_value_float_nan (v lo hi : float) :
  (PrimFloat.is_nan lo = true ∨ PrimFloat.is_nan hi = true →
     PrimFloat.is_nan (scale_value_float v lo hi) = true)
  ∧ (PrimFloat.is_nan lo = false → scale_value_float v lo lo = 0%float).
Proof.
  split.
  - intros Hnan. unfold scale_value_float.
    assert (Hne : PrimFloat.eqb hi lo = false).
    { rewrite FloatAxioms.eqb_spec.
      destruct Hnan as [Hlo%is_nan_Prim2SF | Hhi%is_nan_Prim2SF].
      - rewrite Hlo. by destruct (Prim2SF hi).
      - by rewrite Hhi. }
    rewrite Hne. apply is_nan_Prim2SF.
    rewrite FloatAxioms.div_spec, !FloatAxioms.sub_spec.
    destruct Hnan as [Hlo%is_nan_Prim2SF | Hhi%is_nan_Prim2SF].
    + rewrite Hlo. by destruct (Prim2SF v), (Prim2SF hi).
    + rewrite Hhi. cbn.
      by destruct (SF64sub (Prim2SF v) (Prim2SF lo)).
  - intros Hlo. unfold scale_value_float, PrimFloat.is_nan in *.
    by destruct (PrimFloat.eqb lo lo).
Qed.

(** * Concrete runs of the further properties *)

(** X2 at a concrete call. *)
Lemma returned_score_example :
  ∃ raw m score_value rationale,
    answers (judge_says (Reference.json_text
               "{'score_value': '0.5', 'rationale': 'y'}")) request fresh raw
    ∧ Reference.ref_json_loads raw = Some (JObject m)
    ∧ category_clash None m = false
    ∧ m !! "score_value" = Some score_value
    ∧ m !! "rationale" = Some rationale
    ∧ score_from (H := Reference.runtime) (scorer_of float_scale) "prompt-1"
        None None
        {["score_value" := JString "0.5"; "rationale" := JString "y"]}
        (JString "0.5") (JString "y")
      = score_from (H := Reference.runtime) (scorer_of float_scale)
          "prompt-1" None None m score_value rationale
    ∧ (scorer_type (scorer_of float_scale) = float_scale →
       Reference.ref_float_accepts "0.5" = true)
    ∧ after_build fresh = after_build fresh.
Proof.
  apply (returned_score_comes_from_an_object (H := Reference.runtime)
           (scorer_of float_scale)
           (judge_says (Reference.json_text
              "{'score_value': '0.5', 'rationale': 'y'}"))
           request "prompt-1" None None fresh (after_build fresh)
           (score_from (H := Reference.runtime) (scorer_of float_scale)
              "prompt-1" None None
              {["score_value" := JString "0.5"; "rationale" := JString "y"]}
              (JString "0.5") (JString "y"))).
  vm_compute. reflexivity.
Defined.

(** X3 at a concrete call: a response without [rationale]. *)
Lemma failures_example :
  attempt true_false "{'score_value': 'true'}" None
  = (Raise (missing_key (Reference.json_text "{'score_value': 'true'}")),
     after_send fresh)
  ∧ (∀ key,
       missing_key (Reference.json_text "{'score_value': 'true'}")
       ≠ KeyError key)
  ∧ missing_key (Reference.json_text "{'score_value': 'true'}")
    ≠ JSONDecodeError
  ∧ contains
      (exn_message
         (missing_key (Reference.json_text "{'score_value': 'true'}")))
      (Reference.json_text "{'score_value': 'true'}").
Proof.
  assert (Hrun : attempt true_false "{'score_value': 'true'}" None
    = (Raise (missing_key (Reference.json_text "{'score_value': 'true'}")),
       after_send fresh)) by (vm_compute; reflexivity).
  split; [exact Hrun |].
  destruct (failures_after_an_answer (H := Reference.runtime)
              (scorer_of true_false)
              (judge_says (Reference.json_text "{'score_value': 'true'}"))
              request "prompt-1" None None fresh (after_send fresh)
              (Reference.json_text "{'score_value': 'true'}")
              (missing_key (Reference.json_text "{'score_value': 'true'}")))
    as (Hkey & Hdecode & Hraw).
  - apply judge_says_answers.
  - exact Hrun.
  - split_and!; [exact Hkey | exact Hdecode |].
    apply Hraw; reflexivity.
Defined.

(** X4 at a concrete call. *)
Lemma empty_response_example :
  send_chat_target_async_body (H := Reference.runtime) (scorer_of true_false)
    silent_judge request "prompt-1" None None fresh
  = (Raise (IndexError "list index out of range"), {| sent := 1; built := 0 |}).
Proof.
  apply (empty_response_raises_index_error (H := Reference.runtime)
           (scorer_of true_false) silent_judge request "prompt-1" None None
           fresh {| request_pieces := [] |}); reflexivity.
Defined.

(** X5 at two concrete calls: the response names the category, then the
    response gives an empty one and the caller's is kept. *)
Lemma category_example :
  (∃ score st',
     attempt true_false
       "{'score_value': 'true', 'rationale': 'r', 'category': 'hate'}" None
     = (Return score, st')
     ∧ score_category score = JString "hate")
  ∧ (∃ score st',
       attempt true_false
         "{'score_value': 'true', 'rationale': 'r', 'category': ''}"
         (Some "harm")
       = (Return score, st')
       ∧ score_category score = JString "harm").
Proof.
  split.
  - eexists _, _. split; [vm_compute; reflexivity |].
    edestruct (category_has_one_source (H := Reference.runtime)
                 (scorer_of true_false)
                 (judge_says (Reference.json_text
                    "{'score_value': 'true', 'rationale': 'r', 'category': 'hate'}"))
                 request "prompt-1" None None fresh)
      as [Hresponse _].
    + apply judge_says_answers.
    + vm_compute. reflexivity.
    + vm_compute. reflexivity.
    + exact (proj1 (Hresponse eq_refl)).
  - eexists _, _. split; [vm_compute; reflexivity |].
    edestruct (category_has_one_source (H := Reference.runtime)
                 (scorer_of true_false)
                 (judge_says (Reference.json_text
                    "{'score_value': 'true', 'rationale': 'r', 'category': ''}"))
                 request "prompt-1" (Some "harm") None fresh)
      as [_ Hcaller].
    + apply judge_says_answers.
    + vm_compute. reflexivity.
    + vm_compute. reflexivity.
    + exact (Hcaller eq_refl).
Defined.

(** X6 at a concrete call: a [float] that refuses everything changes
    nothing for a [true_false] scorer. *)
Lemma true_false_example :
  send_chat_target_async_body
    (H := with_float_accepts Reference.runtime (λ _, false))
    (scorer_of true_false)
    (judge_says (Reference.json_text
       "{'score_value': 'maybe', 'rationale': 'r'}"))
    request "prompt-1" None None fresh
  = attempt true_false "{'score_value': 'maybe', 'rationale': 'r'}" None.
Proof.
  apply (true_false_skips_float_check Reference.runtime
           (scorer_of true_false)). reflexivity.
Defined.

(** X8 at a constructor that assigns an id and a scorer that reports the id
    it sees. *)
Lemma helpers_example :
  score_text_async (piece_with_id "id-1") id_reporter "some text" None
  = Return ["no id"]
  ∧ score_image_async (piece_with_id "id-1") id_reporter "cat.png" None
    = Return ["no id"].
Proof.
  destruct (helpers_discard_the_id (piece_with_id "id-1") "some text" None)
    as [(text_piece & -> & _ & Htext) _].
  destruct (helpers_discard_the_id (piece_with_id "id-1") "cat.png" None)
    as [_ (image_piece & -> & _ & Himage)].
  split; [rewrite Htext | rewrite Himage]; reflexivity.
Defined.

(** X9 at concrete values. *)
Lemma scale_value_float_nan_example :
  PrimFloat.is_nan (scale_value_float 1 nan 5) = true
  ∧ scale_value_float nan 5 5 = 0%float.
Proof.
  split.
  - apply (scale_value_float_nan 1 nan 5). by left.
  - apply (scale_value_float_nan nan 5 5). reflexivity.
Defined.

(** X10 at two concrete answers, with and without a null description. *)
Lemma null_is_absent_example :
  ∃ score st',
    attempt true_false "{'score_value': 'true', 'rationale': 'r'}" None
    = (Return score, st')
    ∧ attempt true_false
        "{'score_value': 'true', 'rationale': 'r', 'description': null}" None
      = (Return score, st').
Proof.
  eexists _, _. split; [vm_compute; reflexivity |].
  apply (null_is_absent (H := Reference.runtime) (scorer_of true_false)
           (judge_says (Reference.json_text
              "{'score_value': 'true', 'rationale': 'r'}"))
           request "prompt-1" None None
           (judge_says (Reference.json_text
              "{'score_value': 'true', 'rationale': 'r', 'description': null}"))
           fresh _
           (Reference.json_text "{'score_value': 'true', 'rationale': 'r'}")
           (Reference.json_text
              "{'score_value': 'true', 'rationale': 'r', 'description': null}")
           {["score_value" := JString "true"; "rationale" := JString "r"]}
           "description").
  - by right; left.
  - reflexivity.
  - apply judge_says_answers.
  - vm_compute. reflexivity.
  - apply judge_says_answers.
  - vm_compute. reflexivity.
  - vm_compute. reflexivity.
Defined.

(** X11 at two judges that agree on the first converted text only. *)
Lemma first_piece_example :
  attempt true_false "{'score_value': 'true', 'rationale': 'r'}" None
  = send_chat_target_async_body (H := Reference.runtime)
      (scorer_of true_false)
      (verbose_judge (Reference.json_text
         "{'score_value': 'true', 'rationale': 'r'}"))
      {| request_pieces := [] |} "prompt-1" None None fresh.
Proof.
  apply (only_first_converted_value_is_read (H := Reference.runtime)
           (scorer_of true_false) _ _ _ _ "prompt-1" None None fresh
           (Reference.json_text "{'score_value': 'true', 'rationale': 'r'}")).
  - apply judge_says_answers.
  - by eexists _, _, _.
Defined.
